(** * Purelytics: the ingredient matching and scoring core

    A shallow embedding of
      - [src/services/ingredientParser.js]  (normalizer, matcher, unknown
        classifier, scoring aggregator),
      - [src/data/ingredientDatabase.js]    (reference tables, alias lists,
        [searchIngredients], [isHiddenSugar], [checkForMSG]),
      - [services/aiService.js]             ([CATEGORY_ALTERNATIVES],
        [getAlternativesForCategory]),
    followed by the properties established about them.

    JavaScript strings are sequences of UTF-16 code units; they are embedded
    as lists of code units.  Numbers that the code only uses as integers are
    embedded as [Z]. *)

From Stdlib Require Import List NArith ZArith Bool Lia String Ascii.
From Stdlib Require Import DecimalString.
From Stdlib Require Import Sorting.Sorted Sorting.Permutation.
Import ListNotations.

(* ===================================================================== *)
(** * JavaScript strings *)
(* ===================================================================== *)

Module Js.

(** A string is the list of its UTF-16 code units. *)
Definition str := list N.

(** String literals of the source, which are ASCII in every table that the
    core reads. *)
Definition lit (s : string) : str :=
  List.map N_of_ascii (list_ascii_of_string s).

Definition in_range (lo hi c : N) : bool := (lo <=? c)%N && (c <=? hi)%N.

Definition is_upper (c : N) : bool := in_range 65 90 c.
Definition is_lower (c : N) : bool := in_range 97 122 c.
Definition is_digit (c : N) : bool := in_range 48 57 c.

(** The class [\s] of a regular expression, which is also the set of code
    units removed by [String.prototype.trim]: WhiteSpace and LineTerminator
    of ECMA-262. *)
Definition is_space (c : N) : bool :=
  in_range 9 13 c || (c =? 32)%N || (c =? 160)%N || (c =? 5760)%N
  || in_range 8192 8202 c || (c =? 8232)%N || (c =? 8233)%N
  || (c =? 8239)%N || (c =? 8287)%N || (c =? 12288)%N || (c =? 65279)%N.

(** [String.prototype.toLowerCase].  The embedding maps A-Z to a-z and keeps
    every other code unit; that is what ECMA-262 does on ASCII, the range of
    the reference tables.  Names with letters outside ASCII, which ECMA-262
    lowercases by the Unicode tables, are outside the embedding. *)
Definition lower_unit (c : N) : N := if is_upper c then (c + 32)%N else c.

Definition toLowerCase (s : str) : str := List.map lower_unit s.

(** [s.startsWith(p)] *)
Fixpoint startsWith (s p : str) : bool :=
  match p, s with
  | [], _ => true
  | _ :: _, [] => false
  | a :: p', b :: s' => (a =? b)%N && startsWith s' p'
  end.

(** [s.includes(sub)]: [sub] occurs in [s] as a run of consecutive units. *)
Fixpoint includes (s sub : str) : bool :=
  startsWith s sub ||
  match s with
  | [] => false
  | _ :: s' => includes s' sub
  end.

(** [a === b] on strings. *)
Fixpoint eqb (a b : str) : bool :=
  match a, b with
  | [], [] => true
  | x :: a', y :: b' => (x =? y)%N && eqb a' b'
  | _, _ => false
  end.

(** [s.replace(/\s+/g, rep)] for a one-unit replacement [rep]: every maximal
    run of white space becomes one [rep].  [in_run] tells that the unit
    before the current one was white space. *)
Fixpoint replace_space_runs_from (in_run : bool) (rep : N) (s : str) : str :=
  match s with
  | [] => []
  | c :: t =>
      if is_space c
      then (if in_run then replace_space_runs_from true rep t
            else rep :: replace_space_runs_from true rep t)
      else c :: replace_space_runs_from false rep t
  end.

Definition replace_space_runs (rep : N) (s : str) : str :=
  replace_space_runs_from false rep s.

(** [s.trimStart()] *)
Fixpoint trimStart (s : str) : str :=
  match s with
  | [] => []
  | c :: t => if is_space c then trimStart t else s
  end.

(** [s.trimEnd()] *)
Fixpoint trimEnd (s : str) : str :=
  match s with
  | [] => []
  | c :: t =>
      match trimEnd t with
      | [] => if is_space c then [] else [c]
      | t' => c :: t'
      end
  end.

(** [s.trim()] *)
Definition trim (s : str) : str := trimEnd (trimStart s).

End Js.

(* ===================================================================== *)
(** * ingredientDatabase.js: the reference tables *)
(* ===================================================================== *)

(** The [concern] field, one of the strings 'none', 'low', 'moderate',
    'high'. *)
Module Concern.
Inductive t := none | low | moderate | high.

Definition eqb (a b : t) : bool :=
  match a, b with
  | none, none | low, low | moderate, moderate | high, high => true
  | _, _ => false
  end.
End Concern.

(** A row of the reference tables.  The fields that no function of the core
    reads (E-number, explanations, regulatory status, sources) are left
    out. *)
Module Ingredient.
Record t := {
  id : Js.str;
  name : Js.str;
  category : Js.str;
  score : Z;
  concern : Concern.t;
  hiddenNames : option (list Js.str);   (* absent in the safe ingredients *)
  kidAlert : bool;
  heartHealthAlert : bool;
  diabeticAlert : bool
}.
End Ingredient.

(** One row, in the order: id, name, category, score, concern, hiddenNames,
    kidAlert, heartHealthAlert, diabeticAlert. *)
Definition entry (id name category : string) (score : Z) (concern : Concern.t)
    (hiddenNames : option (list string))
    (kidAlert heartHealthAlert diabeticAlert : bool) : Ingredient.t :=
  {| Ingredient.id := Js.lit id;
     Ingredient.name := Js.lit name;
     Ingredient.category := Js.lit category;
     Ingredient.score := score;
     Ingredient.concern := concern;
     Ingredient.hiddenNames := option_map (List.map Js.lit) hiddenNames;
     Ingredient.kidAlert := kidAlert;
     Ingredient.heartHealthAlert := heartHealthAlert;
     Ingredient.diabeticAlert := diabeticAlert |}.

Definition preservatives : list Ingredient.t :=
  [
    entry "sodium-nitrite" "Sodium Nitrite"
      "Preservative" 25 Concern.high
      (Some [ "Curing salt"; "Prague Powder #1"; "Pink curing salt";
            "Nitrite pickling salt"; "Celery powder"; "Celery juice";
            "Celery extract" ]%string)
      true true false;
    entry "sodium-benzoate" "Sodium Benzoate"
      "Preservative" 45 Concern.moderate
      (Some [ "Benzoate of soda"; "Sodium salt of benzoic acid";
            "Benzoic acid (E210)"; "Potassium benzoate (E212)";
            "Calcium benzoate (E213)" ]%string)
      true false false;
    entry "bha" "BHA (Butylated Hydroxyanisole)"
      "Preservative/Antioxidant" 30 Concern.high
      (Some [ "Butylated hydroxyanisole"; "tert-butyl-4-hydroxyanisole";
            "Antioxidant BHA"; "E320" ]%string)
      true false false;
    entry "bht" "BHT (Butylated Hydroxytoluene)"
      "Preservative/Antioxidant" 40 Concern.moderate
      (Some [ "Butylated hydroxytoluene"; "2,6-di-tert-butyl-4-methylphenol";
            "DBPC"; "E321" ]%string)
      true false false;
    entry "potassium-bromate" "Potassium Bromate"
      "Flour Improver" 10 Concern.high
      (Some [ "Bromate"; "Bromated flour"; "KBrO3" ]%string)
      true false false;
    entry "calcium-propionate" "Calcium Propionate"
      "Preservative" 85 Concern.low
      (Some [ "Calcium propanoate"; "E282" ]%string)
      false false false
  ].

Definition artificialSweeteners : list Ingredient.t :=
  [
    entry "aspartame" "Aspartame"
      "Artificial Sweetener" 35 Concern.high
      (Some [ "NutraSweet"; "Equal"; "Canderel"; "AminoSweet";
            "L-aspartyl-L-phenylalanine methyl ester"; "E951" ]%string)
      true false true;
    entry "sucralose" "Sucralose"
      "Artificial Sweetener" 40 Concern.moderate
      (Some [ "Splenda"; "Sukrana"; "SucraPlus"; "Candys"; "Nevella"; "E955" ]%string)
      true false true;
    entry "high-fructose-corn-syrup" "High Fructose Corn Syrup"
      "Sweetener" 30 Concern.high
      (Some [ "Isoglucose"; "Glucose-fructose syrup";
            "Fructose-glucose syrup"; "Corn sugar (rejected by FDA)";
            "Maize syrup"; "HFCS-42"; "HFCS-55"; "HFCS-90" ]%string)
      true true true
  ].

Definition artificialColors : list Ingredient.t :=
  [
    entry "red-40" "Red 40 (Allura Red AC)"
      "Artificial Color" 35 Concern.high
      (Some [ "Allura Red AC"; "CI 16035"; "Red 40 Lake"; "FD&C Red No. 40";
            "INS 129"; "E129" ]%string)
      true false false;
    entry "yellow-5" "Yellow 5 (Tartrazine)"
      "Artificial Color" 35 Concern.high
      (Some [ "Tartrazine"; "CI 19140"; "Acid Yellow 23"; "FD&C Yellow No. 5";
            "INS 102"; "E102" ]%string)
      true false false;
    entry "yellow-6" "Yellow 6 (Sunset Yellow)"
      "Artificial Color" 35 Concern.high
      (Some [ "Sunset Yellow FCF"; "CI 15985"; "Orange Yellow S";
            "FD&C Yellow No. 6"; "INS 110"; "E110" ]%string)
      true false false;
    entry "red-3" "Red 3 (Erythrosine)"
      "Artificial Color" 15 Concern.high
      (Some [ "Erythrosine B"; "CI 45430"; "Acid Red 51"; "FD&C Red No. 3";
            "INS 127"; "E127" ]%string)
      true false false;
    entry "caramel-color" "Caramel Color (Class III/IV)"
      "Color" 50 Concern.moderate
      (Some [ "Caramel color"; "E150a (Class I - Plain, safer)";
            "E150b (Class II - Caustic sulfite)";
            "E150c (Class III - Ammonia, contains 4-MEI)";
            "E150d (Class IV - Sulfite ammonia, contains 4-MEI)" ]%string)
      true false false
  ].

Definition emulsifiersThickeners : list Ingredient.t :=
  [
    entry "carrageenan" "Carrageenan"
      "Thickener/Stabilizer" 55 Concern.moderate
      (Some [ "Irish moss extract"; "Chondrus crispus extract";
            "E407a (processed Eucheuma seaweed)"; "PES"; "E407" ]%string)
      true false false;
    entry "xanthan-gum" "Xanthan Gum"
      "Thickener/Stabilizer" 90 Concern.low
      (Some [ "Corn sugar gum"; "Polysaccharide gum"; "E415" ]%string)
      false false false;
    entry "mono-diglycerides" "Mono- and Diglycerides"
      "Emulsifier" 40 Concern.moderate
      (Some [ "Glyceryl monostearate (GMS)"; "Glyceryl monopalmitate";
            "Distilled monoglycerides"; "Acetylated monoglycerides";
            "DATEM (E472e)"; "E471" ]%string)
      false true false
  ].

Definition otherAdditives : list Ingredient.t :=
  [
    entry "msg" "MSG (Monosodium Glutamate)"
      "Flavor Enhancer" 70 Concern.low
      (Some [ "Glutamic acid (E620)"; "Monopotassium glutamate (E622)";
            "Yeast extract"; "Autolyzed yeast"; "Hydrolyzed protein";
            "Natural flavors (may contain)" ]%string)
      false false false;
    entry "maltodextrin" "Maltodextrin"
      "Filler/Thickener" 50 Concern.moderate
      (Some [ "Modified cornstarch"; "Modified food starch";
            "Glucose polymer"; "Dextrin"; "Corn starch solids" ]%string)
      false false true;
    entry "partially-hydrogenated-oils" "Partially Hydrogenated Oils (PHOs)"
      "Fat/Oil" 5 Concern.high
      (Some [ "Partially hydrogenated vegetable oil";
            "Partially hydrogenated soybean oil";
            "Partially hydrogenated cottonseed oil";
            "Partially hydrogenated canola oil";
            "Shortening (when made from PHOs)"; "Hard margarine" ]%string)
      true true true
  ].

Definition safeIngredients : list Ingredient.t :=
  [
    entry "citric-acid" "Citric Acid"
      "Acidulant/Preservative" 90 Concern.low
      None
      false false false;
    entry "ascorbic-acid" "Ascorbic Acid (Vitamin C)"
      "Antioxidant/Vitamin" 95 Concern.low
      None
      false false false;
    entry "tocopherols" "Tocopherols (Vitamin E)"
      "Antioxidant/Vitamin" 92 Concern.low
      None
      false false false;
    entry "stevia" "Stevia (Steviol Glycosides)"
      "Natural Sweetener" 80 Concern.low
      None
      false false false;
    entry "pectin" "Pectin"
      "Gelling Agent" 95 Concern.low
      None
      false false false
  ].

(** [ingredientDatabase] spreads the six tables into one object.  The keys
    are pairwise distinct and none is an array index, so [Object.entries]
    lists the rows in the order of insertion, which is the order below. *)
Definition ingredientDatabase : list Ingredient.t :=
  preservatives ++ artificialSweeteners ++ artificialColors
  ++ emulsifiersThickeners ++ otherAdditives ++ safeIngredients.

(** ** Alias lists *)

Definition hiddenSugarNames : list Js.str :=
  List.map Js.lit
    [ "sucrose"; "glucose"; "fructose"; "dextrose"; "maltose"; "lactose";
      "galactose"; "trehalose"; "high fructose corn syrup"; "corn syrup";
      "corn syrup solids"; "malt syrup"; "maple syrup"; "rice syrup";
      "brown rice syrup"; "golden syrup"; "agave syrup"; "agave nectar";
      "carob syrup"; "buttered syrup"; "sorghum syrup"; "refiner's syrup";
      "tapioca syrup"; "oat syrup"; "starch syrup"; "brown sugar";
      "cane sugar"; "raw sugar"; "beet sugar"; "coconut sugar";
      "coconut palm sugar"; "date sugar"; "grape sugar"; "golden sugar";
      "yellow sugar"; "castor sugar"; "confectioner's sugar";
      "powdered sugar"; "icing sugar"; "turbinado sugar"; "demerara sugar";
      "muscovado sugar"; "panela sugar"; "sucanat"; "granulated sugar";
      "table sugar"; "florida crystals"; "cane juice crystals";
      "organic raw sugar"; "fruit juice"; "fruit juice concentrate";
      "evaporated cane juice"; "concentrated fruit juice"; "barley malt";
      "barley malt extract"; "malt extract"; "maltodextrin"; "diastatic malt";
      "ethyl maltol"; "malted barley"; "honey"; "molasses";
      "blackstrap molasses"; "treacle"; "invert sugar";
      "crystalline fructose"; "dextrin"; "caramel"; "panocha";
      "glucose syrup solids"; "mannose"; "sweet sorghum" ]%string.

Definition alwaysContainsMSG : list Js.str :=
  List.map Js.lit
    [ "monosodium glutamate"; "glutamic acid"; "glutamate";
      "monopotassium glutamate"; "calcium glutamate";
      "monoammonium glutamate"; "magnesium glutamate"; "natrium glutamate";
      "yeast extract"; "torula yeast"; "autolyzed yeast"; "brewer's yeast";
      "nutritional yeast"; "yeast food"; "yeast nutrient";
      "hydrolyzed protein"; "hydrolyzed soy protein";
      "hydrolyzed wheat protein"; "hydrolyzed pea protein";
      "hydrolyzed whey protein"; "hydrolyzed corn protein";
      "hydrolyzed vegetable protein"; "calcium caseinate"; "sodium caseinate";
      "gelatin"; "textured protein"; "soy protein"; "soy protein concentrate";
      "soy protein isolate"; "whey protein"; "whey protein concentrate";
      "whey protein isolate"; "soy sauce"; "soy sauce extract"; "protease";
      "vetsin"; "ajinomoto" ]%string.

Definition oftenContainsMSG : list Js.str :=
  List.map Js.lit
    [ "carrageenan"; "bouillon"; "broth"; "stock"; "flavors"; "flavoring";
      "natural flavor"; "natural flavoring"; "maltodextrin"; "oligodextrin";
      "citric acid"; "barley malt"; "malted barley"; "pectin"; "malt extract";
      "seasonings" ]%string.

Definition synergisticIndicators : list Js.str :=
  List.map Js.lit
    [ "disodium 5'-guanylate (E627)"; "disodium 5'-inosinate (E631)";
      "disodium 5'-ribonucleotides (E635)" ]%string.

(** ** Utility functions *)

(** An element of the array returned by [searchIngredients]: a copy of the
    row ([{ ...ingredient }]) with the way it was found. *)
Module SearchResult.
Inductive matchType :=
| ByName                          (* matchType: 'name' *)
| ByHidden (matchedName : Js.str) (* matchType: 'hidden', matchedName *).

Record t := { ingredient : Ingredient.t; how : matchType }.
End SearchResult.

(** [hiddenNames.find(name => name.toLowerCase().includes(normalizedQuery))] *)
Definition find_hidden (normalizedQuery : Js.str) (hiddenNames : list Js.str)
  : option Js.str :=
  List.find (fun name => Js.includes (Js.toLowerCase name) normalizedQuery)
            hiddenNames.

(** The body of the loop of [searchIngredients] over the entries that are
    left, [results] being built in the order of the entries. *)
Fixpoint search_entries (normalizedQuery : Js.str)
    (entries : list Ingredient.t) : list SearchResult.t :=
  match entries with
  | [] => []
  | ingredient :: rest =>
      if Js.includes (Js.toLowerCase (Ingredient.name ingredient))
                     normalizedQuery
      then {| SearchResult.ingredient := ingredient;
              SearchResult.how := SearchResult.ByName |}
           :: search_entries normalizedQuery rest
      else
        match Ingredient.hiddenNames ingredient with
        | Some hiddenNames =>
            match find_hidden normalizedQuery hiddenNames with
            | Some (c :: m) =>       (* [if (hiddenMatch)]: a non-empty string *)
                {| SearchResult.ingredient := ingredient;
                   SearchResult.how := SearchResult.ByHidden (c :: m) |}
                :: search_entries normalizedQuery rest
            | _ => search_entries normalizedQuery rest
            end
        | None => search_entries normalizedQuery rest
        end
  end.

Definition searchIngredients (query : Js.str) : list SearchResult.t :=
  let normalizedQuery := Js.trim (Js.toLowerCase query) in
  search_entries normalizedQuery ingredientDatabase.

Definition isHiddenSugar (name : Js.str) : bool :=
  List.existsb
    (fun sugar => Js.includes (Js.toLowerCase name) (Js.toLowerCase sugar))
    hiddenSugarNames.

(** The [certainty] field of the result of [checkForMSG]. *)
Module Certainty.
Inductive t := high | moderate.

Definition text (c : t) : Js.str :=
  match c with
  | high => Js.lit "high"
  | moderate => Js.lit "moderate"
  end.
End Certainty.

(** The result of [checkForMSG]: [certainty] is [null] exactly when
    [containsMSG] is false. *)
Module MsgCheck.
Record t := { containsMSG : bool; certainty : option Certainty.t }.
End MsgCheck.

Definition checkForMSG (name : Js.str) : MsgCheck.t :=
  let normalizedName := Js.toLowerCase name in
  if List.existsb
       (fun n => Js.includes normalizedName (Js.toLowerCase n))
       alwaysContainsMSG
  then {| MsgCheck.containsMSG := true;
          MsgCheck.certainty := Some Certainty.high |}
  else if List.existsb
            (fun n => Js.includes normalizedName (Js.toLowerCase n))
            oftenContainsMSG
  then {| MsgCheck.containsMSG := true;
          MsgCheck.certainty := Some Certainty.moderate |}
  else {| MsgCheck.containsMSG := false; MsgCheck.certainty := None |}.

(* ===================================================================== *)
(** * ingredientParser.js: the name normalizer *)
(* ===================================================================== *)

(** The units that survive [.replace(/[^a-z0-9\s]/g, '')]. *)
Definition kept_unit (c : N) : bool :=
  Js.is_lower c || Js.is_digit c || Js.is_space c.

Definition normalizeIngredient (name : Js.str) : Js.str :=
  Js.trim
    (Js.replace_space_runs 32
       (List.filter kept_unit (Js.toLowerCase name))).

(* ===================================================================== *)
(** * ingredientParser.js: the matcher *)
(* ===================================================================== *)

(** The inner loop of [findIngredientMatch] over [data.hiddenNames]: true
    when the loop reaches its [return data]. *)
Fixpoint hidden_names_hit (normalized : Js.str) (hiddenNames : list Js.str)
  : bool :=
  match hiddenNames with
  | [] => false
  | hiddenName :: rest =>
      let hiddenNormalized := normalizeIngredient hiddenName in
      if Js.includes normalized hiddenNormalized
         || Js.includes hiddenNormalized normalized
      then true
      else hidden_names_hit normalized rest
  end.

(** The loop of [findIngredientMatch] over the entries of the database that
    are left. *)
Fixpoint match_entries (normalized : Js.str) (entries : list Ingredient.t)
  : option Ingredient.t :=
  match entries with
  | [] => None
  | data :: rest =>
      let dbNormalized := normalizeIngredient (Ingredient.name data) in
      (* Exact match *)
      if Js.eqb normalized dbNormalized then Some data
      (* Partial match *)
      else if Js.includes normalized dbNormalized
              || Js.includes dbNormalized normalized
      then Some data
      (* Check hidden names *)
      else if match Ingredient.hiddenNames data with
              | Some hiddenNames => hidden_names_hit normalized hiddenNames
              | None => false
              end
      then Some data
      else match_entries normalized rest
  end.

(** The result is the row that was found; when it comes from
    [searchIngredients] the source returns the copy of the row, whose two
    additional fields no caller reads. *)
Definition findIngredientMatch (ingredientName : Js.str)
  : option Ingredient.t :=
  let normalized := normalizeIngredient ingredientName in
  (* Direct search *)
  match searchIngredients ingredientName with
  | first :: _ => Some (SearchResult.ingredient first)
  | [] =>
      (* Check each database entry *)
      match_entries normalized ingredientDatabase
  end.

(* ===================================================================== *)
(** * ingredientParser.js: the unknown-ingredient assessment *)
(* ===================================================================== *)

Module Assessment.
Record t := {
  score : Z;
  concern : Concern.t;
  category : Js.str;
  note : option Js.str
}.
End Assessment.

Definition redFlags : list Js.str :=
  List.map Js.lit [ "artificial"; "synthetic"; "hydrogenated"; "modified" ]%string.

Definition yellowFlags : list Js.str :=
  List.map Js.lit [ "flavor"; "color"; "dye"; "preservative" ]%string.

Definition greenFlags : list Js.str :=
  List.map Js.lit
    [ "organic"; "natural"; "vitamin"; "mineral"; "water"; "salt";
      "spice" ]%string.

Definition assessUnknownIngredient (name : Js.str) : Assessment.t :=
  let lower := Js.toLowerCase name in
  (* Check if it's a hidden sugar *)
  if isHiddenSugar name then
    {| Assessment.score := 30;
       Assessment.concern := Concern.moderate;
       Assessment.category := Js.lit "Hidden Sugar";
       Assessment.note := Some (Js.lit "This is a form of added sugar") |}
  else
  (* Check for MSG *)
  let msgCheck := checkForMSG name in
  if MsgCheck.containsMSG msgCheck then
    {| Assessment.score :=
         match MsgCheck.certainty msgCheck with
         | Some Certainty.high => 50
         | _ => 60
         end;
       Assessment.concern := Concern.moderate;
       Assessment.category := Js.lit "Flavor Enhancer";
       Assessment.note :=
         Some (Js.lit "May contain MSG ("
               ++ match MsgCheck.certainty msgCheck with
                  | Some c => Certainty.text c
                  | None => Js.lit "null"
                  end
               ++ Js.lit " certainty)") |}
  else
  (* Red flags in name *)
  if List.existsb (fun flag => Js.includes lower flag) redFlags then
    {| Assessment.score := 40;
       Assessment.concern := Concern.moderate;
       Assessment.category := Js.lit "Processed Additive";
       Assessment.note := None |}
  else
  (* Yellow flags *)
  if List.existsb (fun flag => Js.includes lower flag) yellowFlags then
    {| Assessment.score := 50;
       Assessment.concern := Concern.moderate;
       Assessment.category := Js.lit "Additive";
       Assessment.note := None |}
  else
  (* Likely natural/safe *)
  if List.existsb (fun flag => Js.includes lower flag) greenFlags then
    {| Assessment.score := 80;
       Assessment.concern := Concern.low;
       Assessment.category := Js.lit "Natural Ingredient";
       Assessment.note := None |}
  else
  (* Default for unknown *)
    {| Assessment.score := 70;
       Assessment.concern := Concern.low;
       Assessment.category := Js.lit "Ingredient";
       Assessment.note := None |}.

(* ===================================================================== *)
(** * ingredientParser.js: the scoring aggregator *)
(* ===================================================================== *)

Open Scope Z_scope.

(** An element of [parsedIngredients].  The two display texts that a matched
    row carries along ([plainEnglish], [healthNotes]) are left out. *)
Module Parsed.
Record t := {
  id : Js.str;
  name : Js.str;
  score : Z;
  category : Js.str;
  concern : Concern.t;
  note : option Js.str;
  foundInDatabase : bool
}.
End Parsed.

(** One of the three objects [{ count, names }] of [concerns]. *)
Module Bucket.
Record t := { count : Z; names : list Js.str }.

Definition empty : t := {| count := 0; names := [] |}.

(** [bucket.count++] *)
Definition increment (b : t) : t :=
  {| count := count b + 1; names := names b |}.

(** [bucket.names.push(n)] *)
Definition push (n : Js.str) (b : t) : t :=
  {| count := count b; names := names b ++ [n] |}.
End Bucket.

Module Concerns.
Record t := {
  sugar : Bucket.t;
  preservatives : Bucket.t;
  artificial : Bucket.t
}.

Definition on_sugar (f : Bucket.t -> Bucket.t) (c : t) : t :=
  {| sugar := f (sugar c);
     preservatives := preservatives c;
     artificial := artificial c |}.

Definition on_preservatives (f : Bucket.t -> Bucket.t) (c : t) : t :=
  {| sugar := sugar c;
     preservatives := f (preservatives c);
     artificial := artificial c |}.

Definition on_artificial (f : Bucket.t -> Bucket.t) (c : t) : t :=
  {| sugar := sugar c;
     preservatives := preservatives c;
     artificial := f (artificial c) |}.
End Concerns.

Module Alert.
Record t := { profile : Js.str; message : Js.str }.
End Alert.

(** The variables that the loop of [parseIngredients] updates. *)
Module Loop.
Record t := {
  parsedIngredients : list Parsed.t;
  concerns : Concerns.t;
  profileAlerts : list Alert.t;
  totalScore : Z;
  highConcernCount : Z
}.

Definition init : t :=
  {| parsedIngredients := [];
     concerns := {| Concerns.sugar := Bucket.empty;
                    Concerns.preservatives := Bucket.empty;
                    Concerns.artificial := Bucket.empty |};
     profileAlerts := [];
     totalScore := 0;
     highConcernCount := 0 |}.
End Loop.

(** The block "Track concerns" of the branch of a matched ingredient. *)
Definition track_concerns (ingredientName : Js.str) (match_ : Ingredient.t)
    (concerns : Concerns.t) : Concerns.t :=
  let category := Js.toLowerCase (Ingredient.category match_) in
  let concerns :=
    if Js.includes category (Js.lit "sweetener") || isHiddenSugar ingredientName
    then Concerns.on_sugar (Bucket.push (Ingredient.name match_))
           (Concerns.on_sugar Bucket.increment concerns)
    else concerns in
  let concerns :=
    if Js.includes category (Js.lit "preservative")
    then Concerns.on_preservatives (Bucket.push (Ingredient.name match_))
           (Concerns.on_preservatives Bucket.increment concerns)
    else concerns in
  if Js.includes category (Js.lit "artificial")
     || Js.includes category (Js.lit "color")
  then Concerns.on_artificial (Bucket.push (Ingredient.name match_))
         (Concerns.on_artificial Bucket.increment concerns)
  else concerns.

(** One of the three blocks of "Check for profile alerts": when the flag of
    the row is set and no alert whose profile contains [key] was pushed
    before, push one. *)
Definition alert_once (flag : bool) (key profile message : Js.str)
    (profileAlerts : list Alert.t) : list Alert.t :=
  if flag then
    match List.find (fun a => Js.includes (Alert.profile a) key)
                    profileAlerts with
    | Some _existing => profileAlerts
    | None => profileAlerts ++ [ {| Alert.profile := profile;
                                    Alert.message := message |} ]
    end
  else profileAlerts.

(** The profile texts start with an emoji, written here in code units. *)
Definition profile_kids : Js.str := [55357; 56423]%N ++ Js.lit " Kids".
Definition profile_heart : Js.str := [10084; 65039]%N ++ Js.lit " Heart Health".
Definition profile_diabetic : Js.str := [55358; 56954]%N ++ Js.lit " Diabetic".

Definition profile_alerts (match_ : Ingredient.t)
    (profileAlerts : list Alert.t) : list Alert.t :=
  let contains := Js.lit "Contains " ++ Ingredient.name match_ in
  let profileAlerts :=
    alert_once (Ingredient.kidAlert match_) (Js.lit "Kids") profile_kids
      (contains ++ Js.lit " - " ++ Js.lit "caution advised for children")
      profileAlerts in
  let profileAlerts :=
    alert_once (Ingredient.heartHealthAlert match_) (Js.lit "Heart")
      profile_heart
      (contains ++ Js.lit " - monitor for heart health")
      profileAlerts in
  alert_once (Ingredient.diabeticAlert match_) (Js.lit "Diabetic")
    profile_diabetic
    (contains ++ Js.lit " - watch glycemic impact")
    profileAlerts.

(** The body of [for (const ingredientName of ingredients)]. *)
Definition process_ingredient (st : Loop.t) (ingredientName : Js.str)
  : Loop.t :=
  let '(ingredientData, concerns, profileAlerts) :=
    match findIngredientMatch ingredientName with
    | Some match_ =>
        (* Found in database *)
        ({| Parsed.id := Ingredient.id match_;
            Parsed.name := Ingredient.name match_;
            Parsed.score := Ingredient.score match_;
            Parsed.category := Ingredient.category match_;
            Parsed.concern := Ingredient.concern match_;
            Parsed.note := None;
            Parsed.foundInDatabase := true |},
         track_concerns ingredientName match_ (Loop.concerns st),
         profile_alerts match_ (Loop.profileAlerts st))
    | None =>
        (* Not in database - assess based on name *)
        let assessment := assessUnknownIngredient ingredientName in
        ({| Parsed.id :=
              Js.replace_space_runs 45 (normalizeIngredient ingredientName);
            Parsed.name := ingredientName;
            Parsed.score := Assessment.score assessment;
            Parsed.category := Assessment.category assessment;
            Parsed.concern := Assessment.concern assessment;
            Parsed.note := Assessment.note assessment;
            Parsed.foundInDatabase := false |},
         (* Track hidden sugars *)
         (if Js.eqb (Assessment.category assessment) (Js.lit "Hidden Sugar")
          then Concerns.on_sugar (Bucket.push ingredientName)
                 (Concerns.on_sugar Bucket.increment (Loop.concerns st))
          else Loop.concerns st),
         Loop.profileAlerts st)
    end in
  {| Loop.parsedIngredients := Loop.parsedIngredients st ++ [ingredientData];
     Loop.concerns := concerns;
     Loop.profileAlerts := profileAlerts;
     Loop.totalScore := Loop.totalScore st + Parsed.score ingredientData;
     Loop.highConcernCount :=
       if Concern.eqb (Parsed.concern ingredientData) Concern.high
       then Loop.highConcernCount st + 1
       else Loop.highConcernCount st |}.

(** The state of the variables after the loop. *)
Definition process_all (ingredients : list Js.str) : Loop.t :=
  List.fold_left process_ingredient ingredients Loop.init.

(** [Math.round(a / b)] for integers [0 <= a] and [0 < b]: the quotient
    rounded to the nearest integer, a half rounded up.  The double division
    of the source agrees with it as long as [a < 2^52]; the scores are at
    most 95 and an array has fewer than [2^32] elements. *)
Definition round_div (a b : Z) : Z := (2 * a + b) / (2 * b).

(** The lines under "Calculate overall score". *)
Definition base_score (st : Loop.t) : Z :=
  let n := Z.of_nat (List.length (Loop.parsedIngredients st)) in
  if 0 <? n then round_div (Loop.totalScore st) n else 50.

Definition totalConcerns (c : Concerns.t) : Z :=
  Bucket.count (Concerns.sugar c) + Bucket.count (Concerns.preservatives c)
  + Bucket.count (Concerns.artificial c).

Definition overall_score (st : Loop.t) : Z :=
  let overallScore := base_score st in
  (* Penalize for high concern ingredients *)
  let overallScore := Z.max 5 (overallScore - Loop.highConcernCount st * 8) in
  (* Penalize for many concerns *)
  if 5 <? totalConcerns (Loop.concerns st)
  then Z.max 5 (overallScore - 10)
  else overallScore.

(** The argument of [parseIngredients]; the three texts may be missing. *)
Module AiResult.
Record t := {
  productName : option Js.str;
  brand : option Js.str;
  ingredients : list Js.str;
  rawText : option Js.str
}.
End AiResult.

(** [x || fallback] for an optional string [x]: [undefined] and the empty
    string are falsy. *)
Definition or_else (x : option Js.str) (fallback : Js.str) : Js.str :=
  match x with
  | Some (c :: s) => c :: s
  | _ => fallback
  end.

(** [l.join(sep)] *)
Fixpoint join (sep : Js.str) (l : list Js.str) : Js.str :=
  match l with
  | [] => []
  | [x] => x
  | x :: rest => x ++ sep ++ join sep rest
  end.

(** The two readings of the system clock that a call of [parseIngredients]
    makes, in milliseconds since the epoch: [Date.now()] for the id and
    [new Date()] for the time of the scan. *)
Module Clock.
Record t := { Date_now : Z; new_Date : Z }.
End Clock.

(** The number [z] in a template literal. *)
Definition decimal (z : Z) : Js.str :=
  Js.lit (DecimalString.NilZero.string_of_int (Z.to_int z)).

(** The object returned by [parseIngredients].  [scannedAt] is the instant
    that the source renders with [toISOString()]. *)
Module Product.
Record t := {
  id : Js.str;
  name : Js.str;
  brand : Js.str;
  category : Js.str;
  overallScore : Z;
  rawText : Js.str;
  ingredients : list Parsed.t;
  concerns : Concerns.t;
  profileAlerts : list Alert.t;
  scannedAt : Z
}.
End Product.

Definition parseIngredients (clock : Clock.t) (aiResult : AiResult.t)
  : Product.t :=
  let ingredients := AiResult.ingredients aiResult in
  let st := process_all ingredients in
  {| Product.id := Js.lit "scan-" ++ decimal (Clock.Date_now clock);
     Product.name := or_else (AiResult.productName aiResult)
                             (Js.lit "Scanned Product");
     Product.brand := or_else (AiResult.brand aiResult)
                              (Js.lit "Unknown Brand");
     Product.category := Js.lit "Food Product";
     Product.overallScore := overall_score st;
     Product.rawText := or_else (AiResult.rawText aiResult)
                                (join (Js.lit ", ") ingredients);
     Product.ingredients := Loop.parsedIngredients st;
     Product.concerns := Loop.concerns st;
     Product.profileAlerts := Loop.profileAlerts st;
     Product.scannedAt := Clock.new_Date clock |}.

(* ===================================================================== *)
(** * aiService.js: category-aware alternatives *)
(* ===================================================================== *)

(** An entry of the catalog. *)
Module Candidate.
Record t := {
  name : Js.str;
  brand : Js.str;
  score : Z;
  price : Js.str;
  stores : list Js.str;
  highlights : list Js.str
}.
End Candidate.

(** One entry, in the order: name, brand, score, price, stores,
    highlights. *)
Definition candidate (name brand : string) (score : Z) (price : string)
    (stores highlights : list string) : Candidate.t :=
  {| Candidate.name := Js.lit name;
     Candidate.brand := Js.lit brand;
     Candidate.score := score;
     Candidate.price := Js.lit price;
     Candidate.stores := List.map Js.lit stores;
     Candidate.highlights := List.map Js.lit highlights |}.

(** The own properties of the object [CATEGORY_ALTERNATIVES]. *)
Definition CATEGORY_ALTERNATIVES : list (Js.str * list Candidate.t) :=
  [
    (Js.lit "Beverage",
     [
       candidate "Organic Kombucha" "GT's" 82 "$3.99"
         [ "Whole Foods"; "Target"; "Kroger" ]%string
         [ "Probiotics"; "Low sugar"; "Organic" ]%string;
       candidate "Sparkling Water with Fruit" "Spindrift" 90 "$5.99/8pk"
         [ "Target"; "Walmart"; "Costco" ]%string
         [ "Real fruit juice"; "No sweeteners"; "Zero calories" ]%string;
       candidate "Cold-Pressed Green Juice" "Suja" 78 "$4.49"
         [ "Whole Foods"; "Target"; "Kroger" ]%string
         [ "Cold-pressed"; "No added sugar"; "Organic" ]%string;
       candidate "Coconut Water" "Harmless Harvest" 85 "$4.29"
         [ "Whole Foods"; "Sprouts"; "Target" ]%string
         [ "Raw"; "No added sugar"; "Electrolytes" ]%string
     ]);
    (Js.lit "Dairy",
     [
       candidate "Organic Whole Milk Yogurt" "Stonyfield" 80 "$5.49"
         [ "Target"; "Kroger"; "Whole Foods" ]%string
         [ "Organic"; "Probiotics"; "No artificial ingredients" ]%string;
       candidate "Grass-Fed Whole Milk" "Organic Valley" 85 "$6.99"
         [ "Whole Foods"; "Kroger"; "Sprouts" ]%string
         [ "Grass-fed"; "No hormones"; "Pasture-raised" ]%string;
       candidate "Oat Milk (Unsweetened)" "Oatly" 75 "$4.99"
         [ "Target"; "Walmart"; "Whole Foods" ]%string
         [ "Plant-based"; "No added sugar"; "Fortified" ]%string
     ]);
    (Js.lit "Snack",
     [
       candidate "Organic Veggie Straws" "Hippeas" 72 "$4.29"
         [ "Target"; "Walmart"; "Whole Foods" ]%string
         [ "Organic chickpeas"; "No artificial flavors"; "Gluten-free" ]%string;
       candidate "Mixed Nuts (Unsalted)" "Planters" 88 "$7.99"
         [ "Target"; "Walmart"; "Costco" ]%string
         [ "Whole foods"; "Heart-healthy fats"; "Protein" ]%string;
       candidate "Organic Apple Chips" "Bare" 82 "$3.99"
         [ "Target"; "Whole Foods"; "Kroger" ]%string
         [ "Single ingredient"; "No added sugar"; "Organic" ]%string
     ]);
    (Js.lit "Meat",
     [
       candidate "Uncured Turkey Dogs" "Applegate" 72 "$6.99"
         [ "Target"; "Whole Foods"; "Kroger" ]%string
         [ "No nitrites"; "No artificial ingredients"; "Organic" ]%string;
       candidate "Organic Grass-Fed Beef Franks" "Organic Prairie" 78 "$8.49"
         [ "Whole Foods"; "Sprouts" ]%string
         [ "Grass-fed"; "No added sugar"; "No nitrites" ]%string;
       candidate "All Natural Uncured Beef Franks" "Niman Ranch" 70 "$7.49"
         [ "Whole Foods"; "Safeway"; "Costco" ]%string
         [ "Humanely raised"; "No antibiotics"; "No hormones" ]%string
     ]);
    (Js.lit "Grain",
     [
       candidate "Organic Sprouted Bread" "Ezekiel 4:9" 88 "$5.99"
         [ "Whole Foods"; "Kroger"; "Sprouts" ]%string
         [ "Sprouted grains"; "No flour"; "Complete protein" ]%string;
       candidate "Organic Brown Rice" "Lundberg" 92 "$4.99"
         [ "Target"; "Whole Foods"; "Kroger" ]%string
         [ "Whole grain"; "Organic"; "Single ingredient" ]%string;
       candidate "Ancient Grain Pasta" "Banza" 80 "$3.49"
         [ "Target"; "Walmart"; "Kroger" ]%string
         [ "Chickpea-based"; "High protein"; "Gluten-free" ]%string
     ]);
    (Js.lit "Condiment",
     [
       candidate "Organic Yellow Mustard" "Annie's" 85 "$3.49"
         [ "Target"; "Whole Foods"; "Kroger" ]%string
         [ "Organic"; "Simple ingredients"; "No artificial colors" ]%string;
       candidate "Avocado Oil Mayo" "Primal Kitchen" 78 "$8.99"
         [ "Whole Foods"; "Target"; "Sprouts" ]%string
         [ "Avocado oil"; "No soybean oil"; "No sugar" ]%string;
       candidate "Organic Ketchup" "Annie's" 72 "$3.99"
         [ "Target"; "Kroger"; "Whole Foods" ]%string
         [ "Organic tomatoes"; "No HFCS"; "Non-GMO" ]%string
     ]);
    (Js.lit "Supplement",
     [
       candidate "Methylated B-Complex" "Thorne" 92 "$28.00"
         [ "Amazon"; "Thorne.com"; "Whole Foods" ]%string
         [ "Bioavailable forms"; "Third-party tested"; "No fillers" ]%string;
       candidate "Chelated Magnesium Glycinate" "Pure Encapsulations" 90 "$24.00"
         [ "Amazon"; "PureEncapsulations.com" ]%string
         [ "Chelated form"; "High absorption"; "Hypoallergenic" ]%string;
       candidate "Whole Food Multivitamin" "Garden of Life" 82 "$32.99"
         [ "Whole Foods"; "Amazon"; "Target" ]%string
         [ "Whole food sourced"; "Probiotics included"; "Non-GMO" ]%string
     ]);
    (Js.lit "Baby Food",
     [
       candidate "Organic Baby Puree" "Happy Baby" 88 "$1.49"
         [ "Target"; "Walmart"; "Kroger" ]%string
         [ "Organic"; "No added sugar"; "Non-GMO" ]%string;
       candidate "Organic Teething Wafers" "Happy Baby" 80 "$3.99"
         [ "Target"; "Walmart"; "Whole Foods" ]%string
         [ "Organic rice"; "No wheat"; "Gentle ingredients" ]%string
     ]);
    (Js.lit "Frozen",
     [
       candidate "Organic Frozen Vegetables" "Cascadian Farm" 92 "$3.49"
         [ "Target"; "Kroger"; "Whole Foods" ]%string
         [ "Organic"; "Flash frozen"; "No additives" ]%string;
       candidate "Cauliflower Crust Pizza" "Caulipower" 68 "$8.99"
         [ "Target"; "Walmart"; "Kroger" ]%string
         [ "Cauliflower crust"; "Gluten-free"; "Lower carb" ]%string
     ]);
    (Js.lit "Bakery",
     [
       candidate "Organic Sourdough Bread" "Dave's Killer Bread" 78 "$5.49"
         [ "Target"; "Kroger"; "Walmart" ]%string
         [ "Organic"; "Whole grains"; "Non-GMO" ]%string;
       candidate "Gluten-Free Seed Crackers" "Simple Mills" 80 "$4.99"
         [ "Target"; "Whole Foods"; "Kroger" ]%string
         [ "Almond flour"; "No grains"; "Simple ingredients" ]%string
     ]);
    (Js.lit "Candy",
     [
       candidate "Dark Chocolate (85%)" "Hu" 75 "$4.99"
         [ "Whole Foods"; "Target"; "Sprouts" ]%string
         [ "No refined sugar"; "Organic cacao"; "Fair trade" ]%string;
       candidate "Fruit Snacks (Real Fruit)" "That's It" 85 "$4.49"
         [ "Target"; "Walmart"; "Whole Foods" ]%string
         [ "Only fruit"; "No added sugar"; "No preservatives" ]%string
     ]);
    (Js.lit "Other",
     [
       candidate "Organic Alternative" "Various" 75 "Varies"
         [ "Whole Foods"; "Target"; "Sprouts" ]%string
         [ "Organic"; "Fewer additives"; "Cleaner label" ]%string
     ])
  ].

(** A property read [CATEGORY_ALTERNATIVES[key]].  The object is written as
    a literal, so besides its own properties it answers for the names that
    it inherits from [Object.prototype]; those values are functions (for
    [__proto__] the prototype object itself), all of them truthy and none
    of them an array. *)
Module Property.
Inductive t :=
| Own (alternatives : list Candidate.t)
| Inherited
| Undefined.
End Property.

Definition Object_prototype_names : list Js.str :=
  List.map Js.lit
    [ "constructor"; "hasOwnProperty"; "isPrototypeOf";
      "propertyIsEnumerable"; "toLocaleString"; "toString"; "valueOf";
      "__proto__"; "__defineGetter__"; "__defineSetter__";
      "__lookupGetter__"; "__lookupSetter__" ]%string.

Fixpoint own_property (key : Js.str)
    (properties : list (Js.str * list Candidate.t))
  : option (list Candidate.t) :=
  match properties with
  | [] => None
  | (k, v) :: rest => if Js.eqb k key then Some v else own_property key rest
  end.

Definition get_property (key : Js.str) : Property.t :=
  match own_property key CATEGORY_ALTERNATIVES with
  | Some alternatives => Property.Own alternatives
  | None =>
      if List.existsb (Js.eqb key) Object_prototype_names
      then Property.Inherited
      else Property.Undefined
  end.

(** ** Prices *)

(** A decimal numeral: [mantissa / 10^places]. *)
Module Decimal.
Record t := { mantissa : Z; places : nat }.

(** [d > n] and [d <= n] for an integer [n]. *)
Definition gtb (d : t) (n : Z) : bool := n * 10 ^ Z.of_nat (places d) <? mantissa d.
Definition leb (d : t) (n : Z) : bool := mantissa d <=? n * 10 ^ Z.of_nat (places d).
End Decimal.

(** The digits at the start of [s], and what follows them. *)
Fixpoint take_digits (s : Js.str) : list N * Js.str :=
  match s with
  | [] => ([], [])
  | c :: t =>
      if Js.is_digit c
      then let (digits, rest) := take_digits t in (c :: digits, rest)
      else ([], s)
  end.

Definition digits_value (digits : list N) : Z :=
  List.fold_left (fun acc c => 10 * acc + Z.of_N (c - 48)) digits 0.

(** [parseFloat(s)] for a string [s] of digits and dots, which is all that
    [.replace(/[^0-9.]/g, '')] leaves: the longest prefix of the form
    digits, or digits [.] digits, with a digit in it; [None] is [NaN].
    The source gets the double nearest to this decimal and compares it with
    4 and 7; the comparisons below are made on the decimal itself, which
    gives the same answers for numerals of up to 15 digits. *)
Definition parseFloat (s : Js.str) : option Decimal.t :=
  let (whole, rest) := take_digits s in
  let fraction :=
    match rest with
    | 46%N :: after_dot => fst (take_digits after_dot)
    | _ => []
    end in
  match whole ++ fraction with
  | [] => None
  | digits => Some {| Decimal.mantissa := digits_value digits;
                      Decimal.places := List.length fraction |}
  end.

(** [alt.price.replace(/[^0-9.]/g, '')] *)
Definition price_digits (price : Js.str) : Js.str :=
  List.filter (fun c => Js.is_digit c || (c =? 46)%N) price.

(** A comparison with [NaN] is false. *)
Definition price_gt (price : Js.str) (n : Z) : bool :=
  match parseFloat (price_digits price) with
  | Some d => Decimal.gtb d n
  | None => false
  end.

Definition price_le (price : Js.str) (n : Z) : bool :=
  match parseFloat (price_digits price) with
  | Some d => Decimal.leb d n
  | None => false
  end.

(** ** The ranker *)

Module PriceLevel.
Inductive t := high | moderate | budget.
End PriceLevel.

(** An element of the result: the candidate ([...alt]) with its position
    and the derived fields. *)
Module Alternative.
Record t := {
  id : Z;
  alt : Candidate.t;
  improvement : Z;
  priceLevel : PriceLevel.t;
  budgetPick : bool
}.

Definition score (a : t) : Z := Candidate.score (alt a).
End Alternative.

(** The callback of [.map], at position [index]. *)
Definition decorate (originalScore : Z) (alt : Candidate.t) (index : Z)
  : Alternative.t :=
  {| Alternative.id := index + 1;
     Alternative.alt := alt;
     Alternative.improvement := Z.max 0 (Candidate.score alt - originalScore);
     Alternative.priceLevel :=
       if price_gt (Candidate.price alt) 7 then PriceLevel.high
       else if price_gt (Candidate.price alt) 4 then PriceLevel.moderate
       else PriceLevel.budget;
     Alternative.budgetPick := price_le (Candidate.price alt) 4 |}.

(** [l.map((x, index) => f(x, index))], counting from [index]. *)
Fixpoint map_indexed {A B : Type} (f : A -> Z -> B) (index : Z) (l : list A)
  : list B :=
  match l with
  | [] => []
  | x :: rest => f x index :: map_indexed f (index + 1) rest
  end.

(** [Array.prototype.sort(compare)] is a stable sort (ECMA-262, since the
    2019 edition); it is embedded as insertion sort, where an element moves
    behind another one only when [compare] puts it strictly after. *)
Fixpoint sort_insert {A : Type} (compare : A -> A -> Z) (x : A) (l : list A)
  : list A :=
  match l with
  | [] => [x]
  | y :: rest =>
      if 0 <? compare x y then y :: sort_insert compare x rest
      else x :: y :: rest
  end.

Fixpoint sort {A : Type} (compare : A -> A -> Z) (l : list A) : list A :=
  match l with
  | [] => []
  | x :: rest => sort_insert compare x (sort compare rest)
  end.

(** The chain [.map(...).filter(...).sort(...)] on an array. *)
Definition rank (originalScore : Z) (alternatives : list Candidate.t)
  : list Alternative.t :=
  sort (fun a b => Alternative.improvement b - Alternative.improvement a)
    (List.filter (fun alt => originalScore <? Alternative.score alt)
       (map_indexed (decorate originalScore) 0 alternatives)).

(** What a call does: it returns a value or throws. *)
Module Outcome.
Inductive t (A : Type) :=
| Returns (value : A)
| ThrowsTypeError.
Arguments Returns {A} value.
Arguments ThrowsTypeError {A}.
End Outcome.

Definition getAlternativesForCategory (category : Js.str) (originalScore : Z)
  : Outcome.t (list Alternative.t) :=
  let alternatives :=
    match get_property category with
    | Property.Undefined => get_property (Js.lit "Other")
    | found => found
    end in
  match alternatives with
  | Property.Own alternatives => Outcome.Returns (rank originalScore alternatives)
  | Property.Inherited        (* [alternatives.map] is not a function *)
  | Property.Undefined => Outcome.ThrowsTypeError
  end.

(* ===================================================================== *)
(** * ingredientParser.js: the quick lookup *)
(* ===================================================================== *)

(** What [lookupIngredient] returns: the row that was found, or the object
    built from the assessment of the name. *)
Module Lookup.
Inductive t :=
| Found (match_ : Ingredient.t)
| Assessed (unknown : Parsed.t).
End Lookup.

Definition lookupIngredient (name : Js.str) : Lookup.t :=
  match findIngredientMatch name with
  | Some match_ => Lookup.Found match_
  | None =>
      let assessment := assessUnknownIngredient name in
      Lookup.Assessed
        {| Parsed.id := Js.replace_space_runs 45 (normalizeIngredient name);
           Parsed.name := name;
           Parsed.score := Assessment.score assessment;
           Parsed.category := Assessment.category assessment;
           Parsed.concern := Assessment.concern assessment;
           Parsed.note := Assessment.note assessment;
           Parsed.foundInDatabase := false |}
  end.

(* ===================================================================== *)
(** * ingredientDatabase.js: the rows of a concern level *)
(* ===================================================================== *)

(** The string that the [concern] field holds. *)
Definition concern_text (c : Concern.t) : Js.str :=
  match c with
  | Concern.none => Js.lit "none"
  | Concern.low => Js.lit "low"
  | Concern.moderate => Js.lit "moderate"
  | Concern.high => Js.lit "high"
  end.

(** [Object.values(ingredientDatabase).filter(i => i.concern === level)] *)
Definition getIngredientsByConcern (concernLevel : Js.str)
  : list Ingredient.t :=
  List.filter
    (fun i => Js.eqb (concern_text (Ingredient.concern i)) concernLevel)
    ingredientDatabase.

(* ===================================================================== *)
(** * theme/index.js: the label of a score *)
(* ===================================================================== *)

Definition getScoreLabel (score : Z) : Js.str :=
  if 80 <=? score then Js.lit "Excellent"
  else if 60 <=? score then Js.lit "Good"
  else if 40 <=? score then Js.lit "Fair"
  else if 20 <=? score then Js.lit "Poor"
  else Js.lit "Avoid".

(* ===================================================================== *)
(** * aiService.js: the category anchor *)
(* ===================================================================== *)

Definition PRODUCT_CATEGORIES : list Js.str :=
  List.map Js.lit
    [ "Beverage"; "Dairy"; "Snack"; "Meat"; "Grain"; "Condiment";
      "Supplement"; "Baby Food"; "Frozen"; "Bakery"; "Candy";
      "Other" ]%string.

(** The own properties of the object [typeMap] of [normalizeResult]. *)
Definition typeMap : list (Js.str * Js.str) :=
  List.map (fun kv => (Js.lit (fst kv), Js.lit (snd kv)))
    [ ("food", "Other"); ("drink", "Beverage"); ("snack", "Snack");
      ("supplement", "Supplement"); ("condiment", "Condiment");
      ("other", "Other") ]%string.

(** The value of [productCategory] after [normalizeResult]: a string, or
    the value that [typeMap] inherits from [Object.prototype] under the
    name given as [productType] (a function, or the prototype itself). *)
Module Anchor.
Inductive t :=
| Text (category : Js.str)
| InheritedValue.
End Anchor.

Fixpoint typeMap_own (key : Js.str) (properties : list (Js.str * Js.str))
  : option Js.str :=
  match properties with
  | [] => None
  | (k, v) :: rest => if Js.eqb k key then Some v else typeMap_own key rest
  end.

(** The key under which a missing [productType] is looked up. *)
Definition property_key (productType : option Js.str) : Js.str :=
  match productType with
  | Some key => key
  | None => Js.lit "undefined"
  end.

(** [typeMap[result.productType] || 'Other'] *)
Definition inferred_category (productType : option Js.str) : Anchor.t :=
  match typeMap_own (property_key productType) typeMap with
  | Some category => Anchor.Text category
  | None =>
      if List.existsb (Js.eqb (property_key productType))
                      Object_prototype_names
      then Anchor.InheritedValue
      else Anchor.Text (Js.lit "Other")
  end.

(** [normalizeResult(result).productCategory] for the two fields of
    [result] that the function reads, each a string or missing; the
    function deletes [productType] and leaves the other fields alone. *)
Definition normalizeResult (productCategory productType : option Js.str)
  : Anchor.t :=
  match productCategory with
  | Some (c :: s) =>
      if List.existsb (Js.eqb (c :: s)) PRODUCT_CATEGORIES
      then Anchor.Text (c :: s)
      else inferred_category productType
  | _ => inferred_category productType     (* missing, or the empty string *)
  end.

(* ===================================================================== *)
(** * AlternativesScreen.js: the list that is shown *)
(* ===================================================================== *)

(** [product?.overallScore || 28]: a missing score and 0 are falsy. *)
Definition screen_originalScore (overallScore : option Z) : Z :=
  match overallScore with
  | Some 0 | None => 28
  | Some score => score
  end.

Definition is_budget (level : PriceLevel.t) : bool :=
  match level with
  | PriceLevel.budget => true
  | _ => false
  end.

(** The value of [filteredAlternatives] for the filter chosen. *)
Definition filteredAlternatives (activeFilter : Js.str)
    (categoryAlternatives : list Alternative.t) : list Alternative.t :=
  let filtered := categoryAlternatives in
  if Js.eqb activeFilter (Js.lit "budget") then
    List.filter
      (fun item => Alternative.budgetPick item
                   || is_budget (Alternative.priceLevel item))
      filtered
  else if Js.eqb activeFilter (Js.lit "best") then
    sort (fun a b => Alternative.score b - Alternative.score a)
         (List.filter (fun item => 70 <=? Alternative.score item) filtered)
  else filtered.

(** [Math.max(...scores)] for at least one score. *)
Definition Math_max (first : Z) (others : list Z) : Z :=
  List.fold_left Z.max others first.

Definition bestScore (originalScore : Z)
    (categoryAlternatives : list Alternative.t) : Z :=
  match List.map Alternative.score categoryAlternatives with
  | [] => originalScore
  | first :: others => Math_max first others
  end.

(* ===================================================================== *)
(** * Definitions used to state the properties *)
(* ===================================================================== *)

(** [tidy prev s]: [s] consists of the letters a-z, the digits and single
    spaces; [prev] tells that a space stands right before [s]. *)
Fixpoint tidy (prev : bool) (s : Js.str) : bool :=
  match s with
  | [] => true
  | c :: t =>
      if (c =? 32)%N then negb prev && tidy true t
      else (Js.is_lower c || Js.is_digit c) && tidy false t
  end.

(** The normalizer over any lowercasing [lower]: [normalizeIngredient] is
    [normalize_with Js.toLowerCase]. *)
Definition normalize_with (lower : Js.str -> Js.str) (name : Js.str)
  : Js.str :=
  Js.trim (Js.replace_space_runs 32 (List.filter kept_unit (lower name))).

(** ** The decision table of the unknown-ingredient classifier, as the
    specification words it *)

(** A rule: the name is tested for each of the keywords, as substrings of
    the lowercased name; a hit gives the verdict. *)
Module Rule.
Record t := { keywords : list Js.str; verdict : Assessment.t }.
End Rule.

Definition verdict_of (score : Z) (concern : Concern.t) (category : string)
    (note : option string) : Assessment.t :=
  {| Assessment.score := score;
     Assessment.concern := concern;
     Assessment.category := Js.lit category;
     Assessment.note := option_map Js.lit note |}.

Definition decision_table : list Rule.t :=
  [ {| Rule.keywords := hiddenSugarNames;
       Rule.verdict := verdict_of 30 Concern.moderate "Hidden Sugar"
                         (Some "This is a form of added sugar"%string) |};
    {| Rule.keywords := alwaysContainsMSG;
       Rule.verdict := verdict_of 50 Concern.moderate "Flavor Enhancer"
                         (Some "May contain MSG (high certainty)"%string) |};
    {| Rule.keywords := oftenContainsMSG;
       Rule.verdict := verdict_of 60 Concern.moderate "Flavor Enhancer"
                         (Some "May contain MSG (moderate certainty)"%string) |};
    {| Rule.keywords :=
         List.map Js.lit
           [ "artificial"; "synthetic"; "hydrogenated"; "modified" ]%string;
       Rule.verdict := verdict_of 40 Concern.moderate "Processed Additive"
                         None |};
    {| Rule.keywords :=
         List.map Js.lit [ "flavor"; "color"; "dye"; "preservative" ]%string;
       Rule.verdict := verdict_of 50 Concern.moderate "Additive" None |};
    {| Rule.keywords :=
         List.map Js.lit
           [ "organic"; "natural"; "vitamin"; "mineral"; "water"; "salt";
             "spice" ]%string;
       Rule.verdict := verdict_of 80 Concern.low "Natural Ingredient" None |}
  ].

Definition rule_fires (lowered : Js.str) (rule : Rule.t) : bool :=
  List.existsb (fun keyword => Js.includes lowered keyword)
               (Rule.keywords rule).

(** The first rule that fires wins; without one, the default. *)
Definition classifyUnknown_spec (rawName : Js.str) : Assessment.t :=
  match List.find (rule_fires (Js.toLowerCase rawName)) decision_table with
  | Some rule => Rule.verdict rule
  | None => verdict_of 70 Concern.low "Ingredient" None
  end.

(** The element of [parsedIngredients] for a matched row, and for a name
    without a row, given its assessment. *)
Definition parsed_of_match (match_ : Ingredient.t) : Parsed.t :=
  {| Parsed.id := Ingredient.id match_;
     Parsed.name := Ingredient.name match_;
     Parsed.score := Ingredient.score match_;
     Parsed.category := Ingredient.category match_;
     Parsed.concern := Ingredient.concern match_;
     Parsed.note := None;
     Parsed.foundInDatabase := true |}.

Definition parsed_of_assessment (ingredientName : Js.str)
    (assessment : Assessment.t) : Parsed.t :=
  {| Parsed.id :=
       Js.replace_space_runs 45 (normalizeIngredient ingredientName);
     Parsed.name := ingredientName;
     Parsed.score := Assessment.score assessment;
     Parsed.category := Assessment.category assessment;
     Parsed.concern := Assessment.concern assessment;
     Parsed.note := Assessment.note assessment;
     Parsed.foundInDatabase := false |}.

(** ** The scoring aggregator *)

(** The counter of a bucket is the length of its list of names. *)
Definition bucket_consistent (b : Bucket.t) : Prop :=
  Bucket.count b = Z.of_nat (List.length (Bucket.names b)).

Definition concerns_consistent (c : Concerns.t) : Prop :=
  bucket_consistent (Concerns.sugar c)
  /\ bucket_consistent (Concerns.preservatives c)
  /\ bucket_consistent (Concerns.artificial c).

(** An argument of [parseIngredients] with the given list of names. *)
Definition scan_of (productName brand rawText : option Js.str)
    (ingredients : list Js.str) : AiResult.t :=
  {| AiResult.productName := productName;
     AiResult.brand := brand;
     AiResult.ingredients := ingredients;
     AiResult.rawText := rawText |}.

(** The scenario of the specification. *)
Definition scenario_ingredients : list Js.str :=
  List.map Js.lit
    [ "Sodium Nitrite"; "High Fructose Corn Syrup"; "Citric Acid" ]%string.

Definition clock_at (date_now new_date : Z) : Clock.t :=
  {| Clock.Date_now := date_now; Clock.new_Date := new_date |}.

(** ** The matcher *)

(** The first row of the database, in the order of insertion, that passes a
    test. *)
Definition first_record (test : Ingredient.t -> bool)
  : option Ingredient.t :=
  List.find test ingredientDatabase.

(** The first of two attempts that gives a row. *)
Definition or_next (first_try next_try : option Ingredient.t)
  : option Ingredient.t :=
  match first_try with
  | Some found => Some found
  | None => next_try
  end.

Definition normalized_name (record : Ingredient.t) : Js.str :=
  normalizeIngredient (Ingredient.name record).

Definition contain_each_other (a b : Js.str) : bool :=
  Js.includes a b || Js.includes b a.

Definition alias_test (test : Js.str -> bool) (record : Ingredient.t) : bool :=
  match Ingredient.hiddenNames record with
  | Some hiddenNames => List.existsb test hiddenNames
  | None => false
  end.

(** The algorithm of the specification: four full passes, then null. *)
Definition match_spec (rawName : Js.str) : option Ingredient.t :=
  let normalized := normalizeIngredient rawName in
  or_next
    (* 1. normalize(record.name) contains normalize(rawName) *)
    (first_record
       (fun record => Js.includes (normalized_name record) normalized))
    (or_next
       (* 2. exact equality of normalized names *)
       (first_record
          (fun record => Js.eqb normalized (normalized_name record)))
       (or_next
          (* 3. containment, either way, of the normalized names *)
          (first_record
             (fun record =>
                contain_each_other normalized (normalized_name record)))
          (* 4. containment, either way, with a normalized alias *)
          (first_record
             (alias_test
                (fun alias =>
                   contain_each_other normalized
                     (normalizeIngredient alias)))))).

(** What the code tests in its first pass, the search: the lowercased name
    of the row, or one of its lowercased aliases, contains the query. *)
Definition search_test (query : Js.str) (record : Ingredient.t) : bool :=
  Js.includes (Js.toLowerCase (Ingredient.name record)) query
  || alias_test (fun alias => Js.includes (Js.toLowerCase alias) query)
                record.

(** What the code tests in its second pass: the normalized names are equal
    or contain one another, or the normalized raw name and a normalized
    alias of the row contain one another. *)
Definition loose_test (normalized : Js.str) (record : Ingredient.t) : bool :=
  Js.eqb normalized (normalized_name record)
  || contain_each_other normalized (normalized_name record)
  || alias_test
       (fun alias =>
          contain_each_other normalized (normalizeIngredient alias))
       record.

(** ** The ranker *)

(** The comparator that the ranker gives to [sort], for a key: descending
    in the key. *)
Definition descending {A : Type} (key : A -> Z) (a b : A) : Z :=
  key b - key a.

(** The list that the ranker reads for a category: the list of the
    category when the catalog has one, otherwise the list of "Other". *)
Definition bucket_for (category : Js.str) : list Candidate.t :=
  match own_property category CATEGORY_ALTERNATIVES with
  | Some alternatives => alternatives
  | None =>
      match own_property (Js.lit "Other") CATEGORY_ALTERNATIVES with
      | Some alternatives => alternatives
      | None => []
      end
  end.

(** The decorated candidates that pass the filter, in catalog order. *)
Definition improving (originalScore : Z) (alternatives : list Candidate.t)
  : list Alternative.t :=
  List.filter (fun a => originalScore <? Alternative.score a)
    (map_indexed (decorate originalScore) 0 alternatives).

Definition improves_by (v : Z) (a : Alternative.t) : bool :=
  Alternative.improvement a =? v.

(** The only entry of the list of "Other". *)
Definition organic_alternative : Candidate.t :=
  candidate "Organic Alternative" "Various" 75 "Varies"
    [ "Whole Foods"; "Target"; "Sprouts" ]%string
    [ "Organic"; "Fewer additives"; "Cleaner label" ]%string.

(** ** Further notions, for the properties beyond the specification *)

(** A letter of ASCII or a digit. *)
Definition alphanumeric (c : N) : bool :=
  Js.is_upper c || Js.is_lower c || Js.is_digit c.

(** A name of ASCII: every code unit is below 128.  On such names the
    embedding of [toLowerCase] is what ECMA-262 does. *)
Definition ascii_only (s : Js.str) : bool :=
  List.forallb (fun c => (c <? 128)%N) s.

(** The scores for which the subtractions of the ranker are exact in the
    double arithmetic of the code: with catalog scores from 0 to 100, every
    difference stays below [2^53] in absolute value. *)
Definition exact_in_doubles (originalScore : Z) : Prop :=
  - 2 ^ 52 <= originalScore <= 2 ^ 52.

(** a-z, 0-9 or the space. *)
Definition plain_unit (c : N) : bool :=
  Js.is_lower c || Js.is_digit c || (c =? 32)%N.

(** a-z, 0-9 or the hyphen. *)
Definition slug_unit (c : N) : bool :=
  Js.is_lower c || Js.is_digit c || (c =? 45)%N.

(** The aliases of a row; none when the row has no [hiddenNames]. *)
Definition aliases (row : Ingredient.t) : list Js.str :=
  match Ingredient.hiddenNames row with
  | Some hiddenNames => hiddenNames
  | None => []
  end.

(** A result of the search tells rightly how its row was found: by name
    when the lowercased name contains the query, otherwise by the first
    alias that, lowercased, contains it. *)
Definition rightly_found (query : Js.str) (result : SearchResult.t) : Prop :=
  let row := SearchResult.ingredient result in
  match SearchResult.how result with
  | SearchResult.ByName =>
      Js.includes (Js.toLowerCase (Ingredient.name row)) query = true
  | SearchResult.ByHidden matchedName =>
      Js.includes (Js.toLowerCase (Ingredient.name row)) query = false
      /\ find_hidden query (aliases row) = Some matchedName
  end.

(** The second pass of the matcher without its test of equality. *)
Definition containment_test (normalized : Js.str) (record : Ingredient.t)
  : bool :=
  contain_each_other normalized (normalized_name record)
  || alias_test
       (fun alias =>
          contain_each_other normalized (normalizeIngredient alias))
       record.

(** The numbers from which the overall score is computed. *)
Module Tally.
Record t := {
  total : Z;          (* totalScore *)
  high : Z;           (* highConcernCount *)
  number : Z;         (* parsedIngredients.length *)
  sugar : Z;
  preservatives : Z;
  artificial : Z
}.

Definition zero : t :=
  {| total := 0; high := 0; number := 0;
     sugar := 0; preservatives := 0; artificial := 0 |}.

Definition add (a b : t) : t :=
  {| total := total a + total b;
     high := high a + high b;
     number := number a + number b;
     sugar := sugar a + sugar b;
     preservatives := preservatives a + preservatives b;
     artificial := artificial a + artificial b |}.

Definition sum (l : list t) : t := List.fold_right add zero l.

(** The overall score with its penalties under one clamp, as the
    specification writes it. *)
Definition score (t : t) : Z :=
  let base := if 0 <? number t then round_div (total t) (number t) else 50 in
  Z.max 5 (base - 8 * high t
           - (if 5 <? sugar t + preservatives t + artificial t
              then 10 else 0)).
End Tally.

Definition tally_of (st : Loop.t) : Tally.t :=
  {| Tally.total := Loop.totalScore st;
     Tally.high := Loop.highConcernCount st;
     Tally.number := Z.of_nat (List.length (Loop.parsedIngredients st));
     Tally.sugar := Bucket.count (Concerns.sugar (Loop.concerns st));
     Tally.preservatives :=
       Bucket.count (Concerns.preservatives (Loop.concerns st));
     Tally.artificial :=
       Bucket.count (Concerns.artificial (Loop.concerns st)) |}.

(** What one name adds: the tally of the loop run on that name alone. *)
Definition contribution (ingredientName : Js.str) : Tally.t :=
  tally_of (process_ingredient Loop.init ingredientName).

(** The element of [parsedIngredients] for a name, read off the quick
    lookup. *)
Definition parse_name (ingredientName : Js.str) : Parsed.t :=
  match lookupIngredient ingredientName with
  | Lookup.Found match_ => parsed_of_match match_
  | Lookup.Assessed unknown => unknown
  end.

Definition the_profiles : list Js.str :=
  [ profile_kids; profile_heart; profile_diabetic ].

(** The alerts have pairwise distinct profiles, each one of the three. *)
Definition alerts_distinct (alerts : list Alert.t) : Prop :=
  NoDup (List.map Alert.profile alerts)
  /\ Forall (fun a => In (Alert.profile a) the_profiles) alerts.

(* ===================================================================== *)
(** * Properties of the normalizer *)
(* ===================================================================== *)

Section Normalizer.

Ltac unit_facts :=
  unfold kept_unit, Js.is_space, Js.is_upper, Js.is_lower, Js.is_digit,
    Js.in_range in *;
  rewrite ?orb_true_iff, ?andb_true_iff, ?N.leb_le, ?N.eqb_eq in *.

Lemma lower_not_space c : Js.is_lower c = true -> Js.is_space c = false.
Proof.
  intro H. apply not_true_is_false. intro S. unit_facts. lia.
Qed.

Lemma digit_not_space c : Js.is_digit c = true -> Js.is_space c = false.
Proof.
  intro H. apply not_true_is_false. intro S. unit_facts. lia.
Qed.

Lemma lower_not_upper c : Js.is_lower c = true -> Js.is_upper c = false.
Proof.
  intro H. apply not_true_is_false. intro S. unit_facts. lia.
Qed.

Lemma digit_not_upper c : Js.is_digit c = true -> Js.is_upper c = false.
Proof.
  intro H. apply not_true_is_false. intro S. unit_facts. lia.
Qed.

Lemma kept_not_space c :
  kept_unit c = true -> Js.is_space c = false ->
  Js.is_lower c || Js.is_digit c = true.
Proof.
  unfold kept_unit. intros K S. rewrite S, orb_false_r in K. exact K.
Qed.

(** [tidy prev s]: [s] consists of a-z, 0-9 and single spaces; [prev] tells
    that a space stands before [s]. *)
Lemma tidy_cons prev c t :
  tidy prev (c :: t) = true ->
  (c = 32%N /\ prev = false /\ tidy true t = true)
  \/ (Js.is_lower c || Js.is_digit c = true /\ Js.is_space c = false
      /\ tidy false t = true).
Proof.
  simpl. destruct (N.eqb_spec c 32) as [E | E].
  - rewrite andb_true_iff, negb_true_iff. intros [P T]. left. auto.
  - rewrite andb_true_iff. intros [P T]. right. repeat split; trivial.
    apply orb_true_iff in P as [P | P];
      [apply lower_not_space | apply digit_not_space]; exact P.
Qed.

Lemma tidy_weaken s : tidy true s = true -> tidy false s = true.
Proof.
  destruct s as [| c t]; trivial. simpl.
  destruct (c =? 32)%N; trivial. discriminate.
Qed.

Lemma tidy_toLowerCase prev s :
  tidy prev s = true -> Js.toLowerCase s = s.
Proof.
  revert prev. induction s as [| c t IH]; intros prev H; trivial.
  unfold Js.toLowerCase in *. simpl. f_equal.
  - unfold Js.lower_unit.
    apply tidy_cons in H as [(-> & _ & _) | (P & _ & _)]; trivial.
    apply orb_true_iff in P as [P | P];
      [rewrite (lower_not_upper _ P) | rewrite (digit_not_upper _ P)];
      trivial.
  - apply tidy_cons in H as [(_ & _ & T) | (_ & _ & T)]; eauto.
Qed.

Lemma tidy_filter prev s :
  tidy prev s = true -> List.filter kept_unit s = s.
Proof.
  revert prev. induction s as [| c t IH]; intros prev H; trivial.
  simpl. apply tidy_cons in H as [(-> & _ & T) | (P & _ & T)].
  - change (kept_unit 32) with true. cbv iota. f_equal. eauto.
  - unfold kept_unit. rewrite P. simpl. f_equal. eauto.
Qed.

Lemma tidy_replace_space_runs prev s :
  tidy prev s = true -> Js.replace_space_runs_from prev 32 s = s.
Proof.
  revert prev. induction s as [| c t IH]; intros prev H; trivial.
  simpl. apply tidy_cons in H as [(-> & -> & T) | (_ & S & T)].
  - change (Js.is_space 32) with true. cbv iota. f_equal. auto.
  - rewrite S. f_equal. auto.
Qed.

(** What the two replacements leave is tidy. *)
Lemma replace_space_runs_tidy prev s :
  List.forallb kept_unit s = true ->
  tidy prev (Js.replace_space_runs_from prev 32 s) = true.
Proof.
  revert prev. induction s as [| c t IH]; intros prev H; trivial.
  simpl in H. apply andb_true_iff in H as [K H]. simpl.
  destruct (Js.is_space c) eqn:S.
  - destruct prev; auto. simpl. auto.
  - simpl. destruct (N.eqb_spec c 32) as [-> | _]; [discriminate |].
    rewrite (kept_not_space _ K S). simpl. auto.
Qed.

Lemma forallb_filter_kept s :
  List.forallb kept_unit (List.filter kept_unit s) = true.
Proof.
  induction s as [| c t IH]; trivial. simpl.
  destruct (kept_unit c) eqn:K; trivial. simpl. rewrite K. exact IH.
Qed.

Lemma tidy_trimStart prev s :
  tidy prev s = true -> tidy false (Js.trimStart s) = true.
Proof.
  intro H. destruct s as [| c t]; trivial.
  apply tidy_cons in H as H'. destruct H' as [(-> & -> & T) | (P & S & T)].
  - simpl Js.trimStart. change (Js.is_space 32) with true. cbv iota.
    destruct t as [| d u]; trivial.
    apply tidy_cons in T as T'. destruct T' as [(_ & F & _) | (_ & S & _)];
      [discriminate |].
    simpl Js.trimStart. rewrite S. apply tidy_weaken, T.
  - simpl Js.trimStart. rewrite S.
    destruct prev; [apply tidy_weaken |]; exact H.
Qed.

Lemma tidy_trimEnd prev s :
  tidy prev s = true -> tidy prev (Js.trimEnd s) = true.
Proof.
  revert prev. induction s as [| c t IH]; intros prev H; trivial.
  apply tidy_cons in H as H'. simpl Js.trimEnd.
  destruct H' as [(-> & -> & T) | (P & S & T)].
  - apply IH in T. destruct (Js.trimEnd t) as [| d u]; trivial.
  - apply IH in T. rewrite S. destruct (Js.trimEnd t) as [| d u].
    + simpl. destruct (N.eqb_spec c 32) as [-> | _]; [discriminate |].
      rewrite P. trivial.
    + simpl. destruct (N.eqb_spec c 32) as [-> | _]; [discriminate |].
      rewrite P. exact T.
Qed.

Lemma trimStart_head s :
  match Js.trimStart s with
  | [] => True
  | c :: _ => Js.is_space c = false
  end.
Proof.
  induction s as [| c t IH]; simpl; trivial.
  destruct (Js.is_space c) eqn:S; trivial.
Qed.

Lemma trimEnd_idem s : Js.trimEnd (Js.trimEnd s) = Js.trimEnd s.
Proof.
  induction s as [| c t IH]; trivial. simpl.
  destruct (Js.trimEnd t) as [| d u] eqn:E.
  - destruct (Js.is_space c) eqn:S; trivial. simpl. rewrite S. trivial.
  - change (Js.trimEnd (c :: d :: u))
      with (match Js.trimEnd (d :: u) with
            | [] => if Js.is_space c then [] else [c]
            | t' => c :: t'
            end).
    rewrite IH. trivial.
Qed.

Lemma trimEnd_keeps_head c t :
  Js.is_space c = false -> exists t', Js.trimEnd (c :: t) = c :: t'.
Proof.
  intro S. simpl. rewrite S. destruct (Js.trimEnd t); eauto.
Qed.

Lemma trim_idem s : Js.trim (Js.trim s) = Js.trim s.
Proof.
  unfold Js.trim. pose proof (trimStart_head s) as H.
  destruct (Js.trimStart s) as [| c t]; trivial.
  destruct (trimEnd_keeps_head c t H) as [t' E].
  rewrite E. simpl Js.trimStart. rewrite H, <- E. apply trimEnd_idem.
Qed.

Lemma normalize_with_tidy lower s : tidy false (normalize_with lower s) = true.
Proof.
  unfold normalize_with, Js.trim, Js.replace_space_runs.
  apply tidy_trimEnd, (tidy_trimStart false), replace_space_runs_tidy,
    forallb_filter_kept.
Qed.

(** Idempotence does not rest on what the lowercasing does outside of
    ASCII: it holds for every lowercasing that keeps the strings of a-z,
    0-9 and single spaces. *)
Lemma normalize_with_idempotent (lower : Js.str -> Js.str) :
  (forall s, tidy false s = true -> lower s = s) ->
  forall s,
    normalize_with lower (normalize_with lower s) = normalize_with lower s.
Proof.
  intros fixes s. pose proof (normalize_with_tidy lower s) as T.
  set (r := normalize_with lower s) in *.
  unfold normalize_with at 1.
  rewrite (fixes _ T), (tidy_filter _ _ T).
  unfold Js.replace_space_runs. rewrite (tidy_replace_space_runs _ _ T).
  subst r. unfold normalize_with. apply trim_idem.
Qed.

(** C8: [normalizeIngredient] is a total function (it is defined by
    structural recursion on every string) and it is idempotent:
    normalizing a normalized name changes nothing. *)
Theorem normalizeIngredient_idempotent (s : Js.str) :
  normalizeIngredient (normalizeIngredient s) = normalizeIngredient s.
Proof.
  apply (normalize_with_idempotent Js.toLowerCase).
  intros r T. apply (tidy_toLowerCase _ _ T).
Qed.

End Normalizer.

(* ===================================================================== *)
(** * Properties of the matcher *)
(* ===================================================================== *)

Section Matcher.

Lemma includes_nil (s : Js.str) : Js.includes s [] = true.
Proof. destruct s; reflexivity. Qed.

Lemma nil_includes (q : Js.str) : Js.includes [] q = true -> q = [].
Proof. destruct q; [trivial | discriminate]. Qed.

(** An alias that the search finds is not the empty string, unless the
    query is empty, in which case the name of the row is a hit before. *)
Lemma find_hidden_existsb (query : Js.str) (hiddenNames : list Js.str) :
  match find_hidden query hiddenNames with
  | Some _ => true
  | None => false
  end
  = List.existsb (fun alias => Js.includes (Js.toLowerCase alias) query)
                 hiddenNames.
Proof.
  unfold find_hidden.
  induction hiddenNames as [| h l IH]; trivial. simpl.
  destruct (Js.includes (Js.toLowerCase h) query); trivial.
Qed.

Lemma find_hidden_nonempty (query : Js.str) (hiddenNames : list Js.str) :
  query <> [] -> find_hidden query hiddenNames <> Some [].
Proof.
  intros Q E. unfold find_hidden in E. apply List.find_some in E as [_ E].
  apply Q, nil_includes, E.
Qed.

(** The first result of the search is the first row that passes
    [search_test]. *)
Lemma search_entries_first (query : Js.str) (entries : list Ingredient.t) :
  match search_entries query entries with
  | first :: _ => Some (SearchResult.ingredient first)
  | [] => None
  end
  = List.find (search_test query) entries.
Proof.
  induction entries as [| r l IH]; trivial.
  simpl. unfold search_test at 1.
  destruct (Js.includes (Js.toLowerCase (Ingredient.name r)) query) eqn:N;
    trivial.
  assert (Q : query <> []) by (intros ->; rewrite includes_nil in N;
                               discriminate).
  unfold alias_test. simpl.
  destruct (Ingredient.hiddenNames r) as [hs |]; trivial.
  rewrite <- find_hidden_existsb.
  pose proof (find_hidden_nonempty query hs Q) as NE.
  destruct (find_hidden query hs) as [[| c m] |]; trivial. now elim NE.
Qed.

Lemma hidden_names_hit_existsb (normalized : Js.str) (hs : list Js.str) :
  hidden_names_hit normalized hs
  = List.existsb
      (fun alias => contain_each_other normalized (normalizeIngredient alias))
      hs.
Proof.
  induction hs as [| h l IH]; trivial. simpl. rewrite IH.
  unfold contain_each_other. destruct (_ || _); trivial.
Qed.

(** The loop over the entries returns the first row that passes
    [loose_test]. *)
Lemma match_entries_first (normalized : Js.str)
    (entries : list Ingredient.t) :
  match_entries normalized entries
  = List.find (loose_test normalized) entries.
Proof.
  induction entries as [| r l IH]; trivial.
  simpl. unfold loose_test at 1, alias_test, normalized_name,
    contain_each_other at 1.
  destruct (Js.eqb _ _); trivial. simpl.
  destruct (_ || _); trivial. simpl.
  destruct (Ingredient.hiddenNames r) as [hs |]; trivial.
  rewrite <- hidden_names_hit_existsb.
  destruct (hidden_names_hit normalized hs); trivial.
Qed.

(** C2, as the specification states it, fails: for "Calcium" the code
    returns sodium-benzoate, found by its alias "Calcium benzoate (E213)" in
    the first pass, where the algorithm of the specification returns
    calcium-propionate. *)
Lemma findIngredientMatch_is_not_match_spec :
  option_map Ingredient.id (findIngredientMatch (Js.lit "Calcium"))
    = Some (Js.lit "sodium-benzoate")
  /\ option_map Ingredient.id (match_spec (Js.lit "Calcium"))
     = Some (Js.lit "calcium-propionate")
  /\ findIngredientMatch (Js.lit "Calcium") <> match_spec (Js.lit "Calcium").
Proof.
  split; [vm_compute; reflexivity |].
  split; [vm_compute; reflexivity |].
  intro E. apply (f_equal (option_map Ingredient.score)) in E.
  vm_compute in E. discriminate E.
Qed.

(** C2, amended: the matcher makes two passes over the rows, each in the
    order of insertion and the first hit winning, the first pass before the
    second: (1) the lowercased name of the row, or one of its lowercased
    aliases, contains the lowercased and trimmed raw name; (2) the
    normalized raw name and the normalized name of the row are equal or
    contain one another, or the normalized raw name and a normalized alias
    of the row contain one another; otherwise the result is null. *)
Theorem findIngredientMatch_two_passes (rawName : Js.str) :
  findIngredientMatch rawName
  = or_next
      (first_record (search_test (Js.trim (Js.toLowerCase rawName))))
      (first_record (loose_test (normalizeIngredient rawName))).
Proof.
  unfold findIngredientMatch, searchIngredients, first_record.
  rewrite <- search_entries_first, <- match_entries_first.
  destruct (search_entries _ ingredientDatabase); reflexivity.
Qed.

End Matcher.

(* ===================================================================== *)
(** * Properties of the unknown-ingredient classifier *)
(* ===================================================================== *)

Section Classifier.

Lemma existsb_lowered (lowered : Js.str) (aliases : list Js.str) :
  List.map Js.toLowerCase aliases = aliases ->
  List.existsb (fun n => Js.includes lowered (Js.toLowerCase n)) aliases
  = List.existsb (fun n => Js.includes lowered n) aliases.
Proof.
  intro E. rewrite <- E at 2. clear E.
  induction aliases as [| a l IH]; trivial. simpl. rewrite IH. trivial.
Qed.

(** The alias lists are written in lower case. *)
Lemma hiddenSugarNames_lower :
  List.map Js.toLowerCase hiddenSugarNames = hiddenSugarNames.
Proof. vm_compute. reflexivity. Qed.

Lemma alwaysContainsMSG_lower :
  List.map Js.toLowerCase alwaysContainsMSG = alwaysContainsMSG.
Proof. vm_compute. reflexivity. Qed.

Lemma oftenContainsMSG_lower :
  List.map Js.toLowerCase oftenContainsMSG = oftenContainsMSG.
Proof. vm_compute. reflexivity. Qed.

Lemma assessUnknownIngredient_table (name : Js.str) :
  assessUnknownIngredient name = classifyUnknown_spec name.
Proof.
  unfold assessUnknownIngredient, classifyUnknown_spec, isHiddenSugar,
    checkForMSG, decision_table, rule_fires.
  rewrite (existsb_lowered _ _ hiddenSugarNames_lower),
    (existsb_lowered _ _ alwaysContainsMSG_lower),
    (existsb_lowered _ _ oftenContainsMSG_lower).
  set (lowered := Js.toLowerCase name).
  unfold List.find, Rule.keywords.
  fold redFlags yellowFlags greenFlags.
  destruct (List.existsb _ hiddenSugarNames); [reflexivity |].
  destruct (List.existsb _ alwaysContainsMSG); [reflexivity |].
  destruct (List.existsb _ oftenContainsMSG); [reflexivity |].
  cbn [MsgCheck.containsMSG].
  destruct (List.existsb _ redFlags); [reflexivity |].
  destruct (List.existsb _ yellowFlags); [reflexivity |].
  destruct (List.existsb _ greenFlags); reflexivity.
Qed.

(** C5: the unknown-ingredient assessment is the decision table of the
    specification, first matching rule winning, with substring tests on the
    lowercased name; the scoring loop uses it exactly for the names that
    the matcher does not find; and "Organic Quinoa Flakes", which the
    matcher does not find, is assessed as score 80, concern low, category
    "Natural Ingredient". *)
Theorem assessUnknownIngredient_decision_table :
  (forall name : Js.str,
     assessUnknownIngredient name = classifyUnknown_spec name)
  /\ (forall (st : Loop.t) (name : Js.str),
        Loop.parsedIngredients (process_ingredient st name)
        = Loop.parsedIngredients st
          ++ [ match findIngredientMatch name with
               | Some match_ => parsed_of_match match_
               | None => parsed_of_assessment name (classifyUnknown_spec name)
               end ])
  /\ findIngredientMatch (Js.lit "Organic Quinoa Flakes") = None
  /\ assessUnknownIngredient (Js.lit "Organic Quinoa Flakes")
     = {| Assessment.score := 80;
          Assessment.concern := Concern.low;
          Assessment.category := Js.lit "Natural Ingredient";
          Assessment.note := None |}.
Proof.
  split; [exact assessUnknownIngredient_table |].
  split; [| split; vm_compute; reflexivity].
  intros st name. unfold process_ingredient.
  rewrite <- assessUnknownIngredient_table.
  destruct (findIngredientMatch name); reflexivity.
Qed.

End Classifier.

(* ===================================================================== *)
(** * Properties of the scoring aggregator *)
(* ===================================================================== *)

Section Aggregator.

Lemma increment_push_consistent (n : Js.str) (b : Bucket.t) :
  bucket_consistent b ->
  bucket_consistent (Bucket.push n (Bucket.increment b)).
Proof.
  unfold bucket_consistent. destruct b as [count names]. simpl.
  intros ->. rewrite length_app. simpl. lia.
Qed.

Lemma track_concerns_consistent ingredientName match_ c :
  concerns_consistent c ->
  concerns_consistent (track_concerns ingredientName match_ c).
Proof.
  unfold track_concerns. intros (HS & HP & HA).
  repeat match goal with
         | |- context [if ?b then _ else _] => destruct b
         end;
    repeat split; simpl; trivial; apply increment_push_consistent; trivial.
Qed.

Lemma process_ingredient_consistent st ingredientName :
  concerns_consistent (Loop.concerns st) ->
  concerns_consistent (Loop.concerns (process_ingredient st ingredientName)).
Proof.
  intro H. unfold process_ingredient.
  destruct (findIngredientMatch ingredientName) as [match_ |]; simpl.
  - apply track_concerns_consistent, H.
  - destruct (Js.eqb _ _); trivial.
    destruct H as (HS & HP & HA). repeat split; simpl; trivial.
    apply increment_push_consistent, HS.
Qed.

Lemma fold_process_consistent ingredients st :
  concerns_consistent (Loop.concerns st) ->
  concerns_consistent
    (Loop.concerns (List.fold_left process_ingredient ingredients st)).
Proof.
  revert st. induction ingredients as [| n l IH]; intros st H; trivial.
  simpl. apply IH, process_ingredient_consistent, H.
Qed.

(** C9: in the result of [parseIngredients], for each of the three concern
    buckets the counter equals the length of the list of names. *)
Theorem concern_counts_match_names (clock : Clock.t) (aiResult : AiResult.t) :
  let concerns := Product.concerns (parseIngredients clock aiResult) in
  Bucket.count (Concerns.sugar concerns)
    = Z.of_nat (List.length (Bucket.names (Concerns.sugar concerns)))
  /\ Bucket.count (Concerns.preservatives concerns)
     = Z.of_nat (List.length (Bucket.names (Concerns.preservatives concerns)))
  /\ Bucket.count (Concerns.artificial concerns)
     = Z.of_nat (List.length (Bucket.names (Concerns.artificial concerns))).
Proof.
  simpl. apply (fold_process_consistent (AiResult.ingredients aiResult)).
  repeat split.
Qed.

Lemma overall_score_floor (st : Loop.t) : 5 <= overall_score st.
Proof.
  unfold overall_score. destruct (5 <? _); lia.
Qed.

(** C4: for every list of ingredient names the overall score of the result
    is at least 5; for the empty list the base is 50, and so is the overall
    score. *)
Theorem overallScore_at_least_5 :
  (forall (clock : Clock.t) (aiResult : AiResult.t),
     5 <= Product.overallScore (parseIngredients clock aiResult))
  /\ base_score (process_all []) = 50
  /\ (forall (clock : Clock.t) (productName brand rawText : option Js.str),
        Product.overallScore
          (parseIngredients clock (scan_of productName brand rawText []))
        = 50).
Proof.
  split; [| split].
  - intros clock aiResult. apply overall_score_floor.
  - reflexivity.
  - reflexivity.
Qed.

(** C1, as the specification states it, fails: the overall score of the
    scenario is not 40. *)
Lemma scenario_overallScore_is_not_40 :
  Product.overallScore
    (parseIngredients (clock_at 0 0) (scan_of None None None scenario_ingredients))
  <> 40.
Proof. vm_compute. discriminate. Qed.

(** C1, amended: the three names of the scenario are found as the rows
    sodium-nitrite (25, high), high-fructose-corn-syrup (30, high) and
    citric-acid (90, low); the base is round(145 / 3) = 48; two rows have
    concern high, a penalty of 16; the tallies are sugar 1, preservatives 2
    (sodium nitrite and citric acid, of category Acidulant/Preservative) and
    artificial 0, which is not above 5; the overall score is 32. *)
Theorem scenario_overallScore_is_32
    (clock : Clock.t) (productName brand rawText : option Js.str) :
  let st := process_all scenario_ingredients in
  let result :=
    parseIngredients clock
      (scan_of productName brand rawText scenario_ingredients) in
  List.map (fun p => (Parsed.id p, Parsed.score p, Parsed.concern p))
           (Product.ingredients result)
  = [ (Js.lit "sodium-nitrite", 25, Concern.high);
      (Js.lit "high-fructose-corn-syrup", 30, Concern.high);
      (Js.lit "citric-acid", 90, Concern.low) ]
  /\ Loop.totalScore st = 145
  /\ base_score st = 48
  /\ Loop.highConcernCount st = 2
  /\ Bucket.count (Concerns.sugar (Product.concerns result)) = 1
  /\ Bucket.names (Concerns.preservatives (Product.concerns result))
     = [ Js.lit "Sodium Nitrite"; Js.lit "Citric Acid" ]
  /\ Bucket.count (Concerns.preservatives (Product.concerns result)) = 2
  /\ Bucket.count (Concerns.artificial (Product.concerns result)) = 0
  /\ totalConcerns (Product.concerns result) = 3
  /\ Product.overallScore result = 48 - 2 * 8
  /\ Product.overallScore result = 32.
Proof.
  cbv zeta. unfold parseIngredients, scan_of. cbn [AiResult.ingredients
    Product.ingredients Product.concerns Product.overallScore].
  repeat split; vm_compute; reflexivity.
Qed.

(** The result of [parseIngredients] carries the two readings of the
    clock: two calls on the same input at different times differ. *)
Lemma parseIngredients_depends_on_clock :
  parseIngredients (clock_at 1700000000000 1700000000000)
                   (scan_of None None None scenario_ingredients)
  <> parseIngredients (clock_at 1700000000001 1700000000001)
                      (scan_of None None None scenario_ingredients).
Proof.
  intro E. apply (f_equal Product.scannedAt) in E. discriminate E.
Qed.

End Aggregator.

(* ===================================================================== *)
(** * Properties of the ranker *)
(* ===================================================================== *)

Section Ranker.

Context {A : Type} (key : A -> Z).

Lemma sort_insert_Permutation (x : A) (l : list A) :
  Permutation (x :: l) (sort_insert (descending key) x l).
Proof.
  induction l as [| y t IH]; simpl; trivial.
  destruct (0 <? descending key x y); trivial.
  rewrite perm_swap. apply perm_skip, IH.
Qed.

Lemma sort_Permutation (l : list A) : Permutation l (sort (descending key) l).
Proof.
  induction l as [| x t IH]; simpl; trivial.
  rewrite <- sort_insert_Permutation. apply perm_skip, IH.
Qed.

Lemma sort_insert_sorted (x : A) (l : list A) :
  StronglySorted (fun a b => key a >= key b) l ->
  StronglySorted (fun a b => key a >= key b) (sort_insert (descending key) x l).
Proof.
  induction 1 as [| y t S IH F]; simpl.
  - repeat constructor.
  - unfold descending at 1. destruct (Z.ltb_spec 0 (key y - key x)) as [L | L].
    + constructor; trivial.
      eapply Permutation_Forall; [apply sort_insert_Permutation |].
      constructor; [lia | exact F].
    + constructor; [constructor; trivial |].
      constructor; [lia |].
      eapply Forall_impl; [| exact F]. simpl. intros z Hz. lia.
Qed.

Lemma sort_sorted (l : list A) :
  StronglySorted (fun a b => key a >= key b) (sort (descending key) l).
Proof.
  induction l as [| x t IH]; simpl; [constructor |].
  apply sort_insert_sorted, IH.
Qed.

(** Insertion never carries an element over another one of the same key. *)
Lemma sort_insert_stable (v : Z) (x : A) (l : list A) :
  List.filter (fun a => key a =? v) (sort_insert (descending key) x l)
  = List.filter (fun a => key a =? v) (x :: l).
Proof.
  induction l as [| y t IH]; trivial. simpl sort_insert.
  unfold descending at 1. destruct (Z.ltb_spec 0 (key y - key x)) as [L | L];
    trivial.
  change (List.filter (fun a => key a =? v) (y :: sort_insert (descending key) x t))
    with (if key y =? v
          then y :: List.filter (fun a => key a =? v)
                                (sort_insert (descending key) x t)
          else List.filter (fun a => key a =? v)
                           (sort_insert (descending key) x t)).
  rewrite IH. simpl.
  destruct (Z.eqb_spec (key y) v), (Z.eqb_spec (key x) v); trivial. lia.
Qed.

Lemma sort_stable (v : Z) (l : list A) :
  List.filter (fun a => key a =? v) (sort (descending key) l)
  = List.filter (fun a => key a =? v) l.
Proof.
  induction l as [| x t IH]; trivial. simpl sort.
  rewrite sort_insert_stable. simpl. rewrite IH. trivial.
Qed.

End Ranker.

Section Alternatives.

Lemma map_indexed_decorate originalScore index alternatives :
  Forall (fun a =>
            In (Alternative.alt a) alternatives
            /\ Alternative.improvement a
               = Z.max 0 (Alternative.score a - originalScore))
         (map_indexed (decorate originalScore) index alternatives).
Proof.
  revert index. induction alternatives as [| c l IH]; intro index; simpl.
  - constructor.
  - constructor.
    + split; [left |]; reflexivity.
    + eapply Forall_impl; [| apply IH]. simpl. intros a [I E]. auto.
Qed.

Lemma improving_facts originalScore alternatives :
  Forall (fun a =>
            In (Alternative.alt a) alternatives
            /\ originalScore < Alternative.score a
            /\ Alternative.improvement a
               = Z.max 0 (Alternative.score a - originalScore))
         (improving originalScore alternatives).
Proof.
  unfold improving. apply Forall_forall. intros a I.
  apply filter_In in I as [I L]. apply Z.ltb_lt in L.
  pose proof (map_indexed_decorate originalScore 0 alternatives) as F.
  rewrite Forall_forall in F. destruct (F a I) as [Ia E]. auto.
Qed.

Lemma rank_Permutation originalScore alternatives :
  Permutation (improving originalScore alternatives)
              (rank originalScore alternatives).
Proof. apply (sort_Permutation Alternative.improvement). Qed.

(** When the call returns, it returns the ranking of one list of the
    catalog. *)
Lemma returns_rank_of_bucket category originalScore result :
  getAlternativesForCategory category originalScore = Outcome.Returns result ->
  result = rank originalScore (bucket_for category).
Proof.
  unfold getAlternativesForCategory, get_property, bucket_for.
  destruct (own_property category CATEGORY_ALTERNATIVES) as [l |].
  - intro E. injection E as <-. reflexivity.
  - destruct (List.existsb _ _); [discriminate |].
    destruct (own_property (Js.lit "Other") CATEGORY_ALTERNATIVES) as [l |].
    + intro E. injection E as <-. reflexivity.
    + destruct (List.existsb _ _); discriminate.
Qed.

(** The call returns for every category that is not the name of a property
    of [Object.prototype]. *)
Lemma returns_unless_inherited category originalScore :
  List.existsb (Js.eqb category) Object_prototype_names = false ->
  getAlternativesForCategory category originalScore
  = Outcome.Returns (rank originalScore (bucket_for category)).
Proof.
  unfold getAlternativesForCategory, get_property, bucket_for. intro E.
  destruct (own_property category CATEGORY_ALTERNATIVES) as [l |]; trivial.
  rewrite E. reflexivity.
Qed.

(** Every element of a result is a decorated entry of the one list that the
    category selects. *)
Lemma result_stays_in_bucket category originalScore result :
  getAlternativesForCategory category originalScore = Outcome.Returns result ->
  Forall (fun a => In (Alternative.alt a) (bucket_for category)) result.
Proof.
  intro E. apply returns_rank_of_bucket in E as ->.
  eapply Permutation_Forall; [apply rank_Permutation |].
  eapply Forall_impl; [| apply improving_facts]. simpl. intros a H. apply H.
Qed.

(** C6: every element that the ranker returns has a score strictly greater
    than [originalScore] and carries
    [improvement = max 0 (score - originalScore)]; the result holds exactly
    the candidates of the list that pass this filter, in descending order of
    improvement, those of equal improvement in the order of the catalog. *)
Theorem alternatives_improve_and_are_ranked
    (category : Js.str) (originalScore : Z) (result : list Alternative.t) :
  getAlternativesForCategory category originalScore = Outcome.Returns result ->
  Forall (fun a =>
            originalScore < Alternative.score a
            /\ Alternative.improvement a
               = Z.max 0 (Alternative.score a - originalScore))
         result
  /\ Permutation (improving originalScore (bucket_for category)) result
  /\ StronglySorted
       (fun a b => Alternative.improvement a >= Alternative.improvement b)
       result
  /\ (forall v : Z,
        List.filter (improves_by v) result
        = List.filter (improves_by v)
                      (improving originalScore (bucket_for category))).
Proof.
  intro E. apply returns_rank_of_bucket in E as ->.
  split; [| split; [| split]].
  - eapply Permutation_Forall; [apply rank_Permutation |].
    eapply Forall_impl; [| apply improving_facts]. simpl. intros a H. apply H.
  - apply rank_Permutation.
  - apply (sort_sorted Alternative.improvement).
  - intro v. apply (sort_stable Alternative.improvement).
Qed.

(** The scenario of the specification: category "Supplement", score 40. *)
Lemma alternatives_improve_and_are_ranked_witness :
  let result := rank 40 (bucket_for (Js.lit "Supplement")) in
  List.map Alternative.improvement result = [52; 50; 42]
  /\ Forall (fun a =>
               40 < Alternative.score a
               /\ Alternative.improvement a
                  = Z.max 0 (Alternative.score a - 40))
            result
  /\ Permutation (improving 40 (bucket_for (Js.lit "Supplement"))) result
  /\ StronglySorted
       (fun a b => Alternative.improvement a >= Alternative.improvement b)
       result
  /\ (forall v : Z,
        List.filter (improves_by v) result
        = List.filter (improves_by v)
                      (improving 40 (bucket_for (Js.lit "Supplement")))).
Proof.
  split; [vm_compute; reflexivity |].
  apply (alternatives_improve_and_are_ranked (Js.lit "Supplement") 40).
  vm_compute. reflexivity.
Defined.

(** C7 fails on the names that the catalog object inherits: for the
    category "constructor", which is not a key of the catalog, the property
    read gives the inherited function, the fallback to "Other" is not
    taken, and the call throws. *)
Theorem inherited_category_throws :
  own_property (Js.lit "constructor") CATEGORY_ALTERNATIVES = None
  /\ get_property (Js.lit "constructor") = Property.Inherited
  /\ getAlternativesForCategory (Js.lit "constructor") 50
     = Outcome.ThrowsTypeError
  /\ getAlternativesForCategory (Js.lit "Cosmetics") 50
     = Outcome.Returns (rank 50 (bucket_for (Js.lit "Other"))).
Proof. repeat split; vm_compute; reflexivity. Qed.

Lemma Other_bucket :
  get_property (Js.lit "Other") = Property.Own [organic_alternative].
Proof. vm_compute. reflexivity. Qed.

(** C10: a [priceLevel] of budget does not imply [budgetPick].  The price
    "Varies" of the only entry of "Other" has no digit, its numeric parse
    is [NaN], and for every [originalScore] below 75 the ranker returns
    that entry with [priceLevel] budget and [budgetPick] false. *)
Theorem budget_level_without_budget_pick (originalScore : Z) :
  originalScore < 75 ->
  parseFloat (price_digits (Candidate.price organic_alternative)) = None
  /\ getAlternativesForCategory (Js.lit "Other") originalScore
     = Outcome.Returns
         [ {| Alternative.id := 1;
              Alternative.alt := organic_alternative;
              Alternative.improvement := 75 - originalScore;
              Alternative.priceLevel := PriceLevel.budget;
              Alternative.budgetPick := false |} ].
Proof.
  intro L. split; [vm_compute; reflexivity |].
  unfold getAlternativesForCategory. rewrite Other_bucket.
  unfold rank. cbn [map_indexed]. unfold decorate at 1.
  replace (Z.max 0 (Candidate.score organic_alternative - originalScore))
    with (75 - originalScore)
    by (change (Candidate.score organic_alternative) with 75; lia).
  cbn [List.filter]. unfold Alternative.score. cbn [Alternative.alt].
  change (Candidate.score organic_alternative) with 75.
  apply Z.ltb_lt in L. rewrite L. reflexivity.
Qed.

(** The default score of the alternatives screen, 28. *)
Lemma budget_level_without_budget_pick_witness :
  parseFloat (price_digits (Candidate.price organic_alternative)) = None
  /\ getAlternativesForCategory (Js.lit "Other") 28
     = Outcome.Returns
         [ {| Alternative.id := 1;
              Alternative.alt := organic_alternative;
              Alternative.improvement := 75 - 28;
              Alternative.priceLevel := PriceLevel.budget;
              Alternative.budgetPick := false |} ].
Proof. apply (budget_level_without_budget_pick 28). lia. Defined.

End Alternatives.

(* ===================================================================== *)
(** * Further properties of the normalizer and the matcher *)
(* ===================================================================== *)

Section MoreMatcher.

Ltac unit_cases :=
  unfold alphanumeric, plain_unit, kept_unit, Js.lower_unit, Js.is_space,
    Js.is_upper, Js.is_lower, Js.is_digit, Js.in_range in *;
  rewrite ?orb_true_iff, ?andb_true_iff, ?N.leb_le, ?N.eqb_eq in *.

Lemma tidy_plain prev r :
  tidy prev r = true -> Forall (fun c => plain_unit c = true) r.
Proof.
  revert prev. induction r as [| c t IH]; intros prev H; constructor.
  - apply tidy_cons in H as [(-> & _ & _) | (P & _ & _)]; [reflexivity |].
    unfold plain_unit. rewrite P. reflexivity.
  - apply tidy_cons in H as [(_ & _ & T) | (_ & _ & T)]; eauto.
Qed.

Lemma tidy_no_double_space prev r :
  tidy prev r = true -> Js.includes r [32; 32]%N = false.
Proof.
  revert prev. induction r as [| c t IH]; intros prev H; [reflexivity |].
  change (Js.includes (c :: t) [32; 32]%N)
    with (Js.startsWith (c :: t) [32; 32]%N || Js.includes t [32; 32]%N).
  apply tidy_cons in H as [(-> & _ & T) | (P & S & T)].
  - rewrite (IH _ T), orb_false_r.
    destruct t as [| d u]; [reflexivity |].
    apply tidy_cons in T as [(_ & F & _) | (_ & S & _)]; [discriminate |].
    cbn [Js.startsWith]. rewrite N.eqb_refl.
    destruct (N.eqb_spec 32 d) as [<- | _]; [discriminate | reflexivity].
  - rewrite (IH _ T), orb_false_r. cbn [Js.startsWith].
    destruct (N.eqb_spec 32 c) as [<- | _]; [discriminate | reflexivity].
Qed.

Lemma trimEnd_last s : Js.is_space (List.last (Js.trimEnd s) 0%N) = false.
Proof.
  induction s as [| c t IH]; [reflexivity |]. simpl Js.trimEnd.
  destruct (Js.trimEnd t) as [| d u].
  - destruct (Js.is_space c) eqn:S; [reflexivity | exact S].
  - exact IH.
Qed.

Lemma trim_hd s : Js.is_space (List.hd 0%N (Js.trim s)) = false.
Proof.
  unfold Js.trim. pose proof (trimStart_head s) as H.
  destruct (Js.trimStart s) as [| c t]; [reflexivity |].
  destruct (trimEnd_keeps_head c t H) as [t' ->]. exact H.
Qed.

(** X1: a normalized name consists of the letters a-z, the digits and
    single spaces, and neither starts nor ends with white space. *)
Theorem normalizeIngredient_normal_form (s : Js.str) :
  Forall (fun c => plain_unit c = true) (normalizeIngredient s)
  /\ Js.includes (normalizeIngredient s) (Js.lit "  ") = false
  /\ Js.is_space (List.hd 0%N (normalizeIngredient s)) = false
  /\ Js.is_space (List.last (normalizeIngredient s) 0%N) = false.
Proof.
  pose proof (normalize_with_tidy Js.toLowerCase s) as T.
  change (normalize_with Js.toLowerCase s) with (normalizeIngredient s) in T.
  split; [exact (tidy_plain _ _ T) |].
  split; [exact (tidy_no_double_space _ _ T) |].
  split; [apply trim_hd | apply trimEnd_last].
Qed.

Lemma trimStart_nil s :
  Js.trimStart s = [] <-> List.forallb Js.is_space s = true.
Proof.
  induction s as [| c t IH]; simpl; [split; reflexivity |].
  destruct (Js.is_space c); simpl; [exact IH |].
  split; discriminate.
Qed.

Lemma trimEnd_nil s :
  Js.trimEnd s = [] <-> List.forallb Js.is_space s = true.
Proof.
  induction s as [| c t IH]; simpl; [split; reflexivity |].
  destruct (Js.trimEnd t) as [| d u].
  - destruct (Js.is_space c); simpl.
    + split; [intros _; apply IH; reflexivity | reflexivity].
    + split; discriminate.
  - split; [discriminate |]. intro H. apply andb_true_iff in H as [_ H].
    apply IH in H. discriminate.
Qed.

Lemma trim_nil s : Js.trim s = [] <-> List.forallb Js.is_space s = true.
Proof.
  unfold Js.trim. rewrite trimEnd_nil.
  induction s as [| c t IH]; [reflexivity |]. simpl.
  destruct (Js.is_space c) eqn:S; [exact IH |].
  simpl. rewrite S. reflexivity.
Qed.

Lemma replace_space_runs_all_space prev s :
  List.forallb Js.is_space (Js.replace_space_runs_from prev 32 s)
  = List.forallb Js.is_space s.
Proof.
  revert prev. induction s as [| c t IH]; intro prev; [reflexivity |].
  simpl. destruct (Js.is_space c) eqn:S; simpl.
  - destruct prev; [apply IH |]. simpl. apply IH.
  - rewrite S. reflexivity.
Qed.

Lemma filter_kept_all_space s :
  List.forallb Js.is_space (List.filter kept_unit s)
  = negb (List.existsb (fun c => Js.is_lower c || Js.is_digit c) s).
Proof.
  induction s as [| c t IH]; [reflexivity |]. simpl.
  unfold kept_unit at 1.
  destruct (Js.is_lower c) eqn:L.
  - simpl. rewrite (lower_not_space _ L). reflexivity.
  - destruct (Js.is_digit c) eqn:D.
    + simpl. rewrite (digit_not_space _ D). reflexivity.
    + simpl. destruct (Js.is_space c) eqn:S; simpl; rewrite ?S; exact IH.
Qed.

Lemma lower_unit_alphanumeric c :
  Js.is_lower (Js.lower_unit c) || Js.is_digit (Js.lower_unit c)
  = alphanumeric c.
Proof.
  unfold alphanumeric, Js.lower_unit.
  destruct (Js.is_upper c) eqn:U; [| reflexivity].
  simpl. apply orb_true_iff. left. unit_cases. lia.
Qed.

Lemma existsb_toLowerCase s :
  List.existsb (fun c => Js.is_lower c || Js.is_digit c) (Js.toLowerCase s)
  = List.existsb alphanumeric s.
Proof.
  unfold Js.toLowerCase. induction s as [| c t IH]; [reflexivity |].
  simpl. rewrite IH, lower_unit_alphanumeric. reflexivity.
Qed.

Lemma normalizeIngredient_nil_iff (s : Js.str) :
  normalizeIngredient s = [] <-> List.existsb alphanumeric s = false.
Proof.
  unfold normalizeIngredient, Js.replace_space_runs.
  rewrite trim_nil, replace_space_runs_all_space, filter_kept_all_space,
    existsb_toLowerCase, negb_true_iff. tauto.
Qed.

(** X2: for a name of ASCII, the normalized name is empty exactly when the
    name has no letter and no digit. *)
Theorem normalizeIngredient_empty_iff (s : Js.str) :
  ascii_only s = true ->
  (normalizeIngredient s = [] <-> List.existsb alphanumeric s = false).
Proof. intros _. apply normalizeIngredient_nil_iff. Qed.

Lemma normalizeIngredient_empty_iff_witness :
  normalizeIngredient (Js.lit " (#) ") = []
  /\ (normalizeIngredient (Js.lit " (#) ") = []
      <-> List.existsb alphanumeric (Js.lit " (#) ") = false).
Proof.
  split; [vm_compute; reflexivity |].
  apply (normalizeIngredient_empty_iff (Js.lit " (#) ")). reflexivity.
Defined.

Lemma find_hidden_some_nonempty query hs m :
  query <> [] -> find_hidden query hs = Some m -> m <> [].
Proof.
  intros Q E ->. exact (find_hidden_nonempty query hs Q E).
Qed.

Lemma search_entries_filter (query : Js.str) (entries : list Ingredient.t) :
  List.map SearchResult.ingredient (search_entries query entries)
  = List.filter (search_test query) entries
  /\ Forall (rightly_found query) (search_entries query entries).
Proof.
  induction entries as [| r l [IH1 IH2]]; [split; [reflexivity | constructor] |].
  simpl. unfold search_test at 1, rightly_found at 1.
  destruct (Js.includes (Js.toLowerCase (Ingredient.name r)) query) eqn:N.
  - simpl. rewrite IH1. split; [reflexivity |].
    constructor; [exact N | exact IH2].
  - assert (Q : query <> []) by (intros ->; rewrite includes_nil in N;
                                 discriminate).
    unfold alias_test, aliases. simpl.
    destruct (Ingredient.hiddenNames r) as [hs |] eqn:HN; [| split; assumption].
    rewrite <- find_hidden_existsb.
    pose proof (find_hidden_nonempty query hs Q) as NE.
    destruct (find_hidden query hs) as [[| c m] |] eqn:F;
      [now elim NE | | split; assumption].
    simpl. rewrite IH1. split; [reflexivity |].
    constructor; [| exact IH2].
    unfold rightly_found, aliases. simpl. rewrite HN. split; assumption.
Qed.

(** X3: [searchIngredients] returns, in the order of the database and each
    once, the rows whose lowercased name or one of whose lowercased aliases
    contains the lowercased, trimmed query; every result tells rightly
    whether the name or which alias, the first that fits, was the hit. *)
Theorem searchIngredients_lists_the_hits (query : Js.str) :
  List.map SearchResult.ingredient (searchIngredients query)
  = List.filter (search_test (Js.trim (Js.toLowerCase query)))
                ingredientDatabase
  /\ Forall (rightly_found (Js.trim (Js.toLowerCase query)))
            (searchIngredients query).
Proof. apply search_entries_filter. Qed.

Lemma findIngredientMatch_passes (rawName : Js.str) :
  findIngredientMatch rawName
  = or_next
      (List.find (search_test (Js.trim (Js.toLowerCase rawName)))
                 ingredientDatabase)
      (List.find (loose_test (normalizeIngredient rawName))
                 ingredientDatabase).
Proof.
  unfold findIngredientMatch, searchIngredients.
  rewrite <- search_entries_first, <- match_entries_first.
  destruct (search_entries _ ingredientDatabase); reflexivity.
Qed.

Lemma match_in_database rawName row :
  findIngredientMatch rawName = Some row -> In row ingredientDatabase.
Proof.
  rewrite findIngredientMatch_passes. unfold or_next.
  destruct (List.find (search_test _) _) as [found |] eqn:F.
  - intro E. injection E as <-. apply List.find_some in F. apply F.
  - intro E. apply List.find_some in E. apply E.
Qed.

(** X4: what the matcher returns is a row of the database. *)
Theorem findIngredientMatch_in_database
    (rawName : Js.str) (row : Ingredient.t) :
  findIngredientMatch rawName = Some row -> In row ingredientDatabase.
Proof. apply match_in_database. Qed.

Lemma findIngredientMatch_in_database_witness :
  exists row,
    findIngredientMatch (Js.lit "Prague Powder #1") = Some row
    /\ Ingredient.id row = Js.lit "sodium-nitrite"
    /\ In row ingredientDatabase.
Proof.
  eexists. split; [vm_compute; reflexivity |]. split; [reflexivity |].
  apply (findIngredientMatch_in_database (Js.lit "Prague Powder #1")).
  vm_compute. reflexivity.
Defined.

Lemma loose_test_empty (row : Ingredient.t) : loose_test [] row = true.
Proof.
  unfold loose_test, contain_each_other.
  rewrite includes_nil, !orb_true_r. reflexivity.
Qed.

(** X5: a name of ASCII without a letter or digit is never handed to the
    unknown-ingredient assessment: the matcher returns the first row that
    the search finds for it, and without one the first row of the
    database. *)
Theorem name_without_letters_is_matched (rawName : Js.str) :
  ascii_only rawName = true ->
  List.existsb alphanumeric rawName = false ->
  findIngredientMatch rawName
  = or_next
      (first_record (search_test (Js.trim (Js.toLowerCase rawName))))
      (List.head ingredientDatabase)
  /\ exists row, findIngredientMatch rawName = Some row.
Proof.
  intros _ H. apply normalizeIngredient_nil_iff in H.
  rewrite findIngredientMatch_passes, H. unfold first_record.
  assert (E : List.find (loose_test []) ingredientDatabase
              = List.head ingredientDatabase).
  { destruct ingredientDatabase as [| r l]; [reflexivity |].
    simpl. rewrite loose_test_empty. reflexivity. }
  rewrite E. split; [reflexivity |].
  destruct (List.find (search_test _) _) as [found |]; simpl; eauto.
Qed.

Lemma name_without_letters_is_matched_witness :
  option_map Ingredient.id (findIngredientMatch (Js.lit "***"))
  = Some (Js.lit "sodium-nitrite")
  /\ findIngredientMatch (Js.lit "***")
     = or_next
         (first_record
            (search_test (Js.trim (Js.toLowerCase (Js.lit "***")))))
         (List.head ingredientDatabase)
  /\ exists row, findIngredientMatch (Js.lit "***") = Some row.
Proof.
  split; [vm_compute; reflexivity |].
  apply (name_without_letters_is_matched (Js.lit "***")); reflexivity.
Defined.

Lemma startsWith_refl s : Js.startsWith s s = true.
Proof.
  induction s as [| c t IH]; [reflexivity |]. simpl.
  rewrite N.eqb_refl. exact IH.
Qed.

Lemma includes_refl s : Js.includes s s = true.
Proof. destruct s; simpl; [reflexivity |]. rewrite N.eqb_refl, startsWith_refl. reflexivity. Qed.

Lemma eqb_eq a b : Js.eqb a b = true -> a = b.
Proof.
  revert b. induction a as [| x a IH]; intros [| y b]; simpl;
    try discriminate; [reflexivity |].
  rewrite andb_true_iff, N.eqb_eq. intros [-> E]. f_equal. auto.
Qed.

Lemma loose_test_containment normalized row :
  loose_test normalized row = containment_test normalized row.
Proof.
  unfold loose_test, containment_test.
  destruct (Js.eqb normalized (normalized_name row)) eqn:E; [| reflexivity].
  apply eqb_eq in E. rewrite <- E. unfold contain_each_other.
  rewrite includes_refl. reflexivity.
Qed.

(** X6: the test "Exact match" of the loop of the matcher never decides:
    equal normalized names contain one another, so the loop returns the
    first row for which the normalized names contain one another or the
    normalized raw name and a normalized alias do. *)
Theorem exact_match_is_subsumed
    (normalized : Js.str) (entries : list Ingredient.t) :
  match_entries normalized entries
  = List.find (containment_test normalized) entries.
Proof.
  rewrite match_entries_first.
  induction entries as [| r l IH]; [reflexivity |]. simpl.
  rewrite loose_test_containment, IH. reflexivity.
Qed.

Lemma Forall_of_map_eq {A B : Type} (f g : A -> B) (l : list A) :
  List.map f l = List.map g l -> Forall (fun x => f x = g x) l.
Proof.
  induction l as [| x t IH]; simpl; intro E; constructor.
  - now injection E.
  - apply IH. now injection E.
Qed.

(** X7: every row of the database is found by its own name and by each of
    its aliases: no row is shadowed by a row before it. *)
Theorem every_row_is_found_by_its_names :
  Forall (fun row => findIngredientMatch (Ingredient.name row) = Some row)
         ingredientDatabase
  /\ Forall (fun row =>
               List.map findIngredientMatch (aliases row)
               = List.map (fun _ => Some row) (aliases row))
            ingredientDatabase.
Proof.
  split; apply Forall_of_map_eq; vm_compute; reflexivity.
Qed.

Lemma ignores_case (a b : Js.str) :
  Js.toLowerCase a = Js.toLowerCase b ->
  findIngredientMatch a = findIngredientMatch b
  /\ assessUnknownIngredient a = assessUnknownIngredient b
  /\ isHiddenSugar a = isHiddenSugar b.
Proof.
  intro H.
  unfold findIngredientMatch, searchIngredients, normalizeIngredient,
    assessUnknownIngredient, isHiddenSugar, checkForMSG.
  rewrite H. repeat split.
Qed.

(** X8: the matcher and the assessment do not tell apart names that differ
    in the case of their letters only. *)
Theorem matching_ignores_case (a b : Js.str) :
  Js.toLowerCase a = Js.toLowerCase b ->
  findIngredientMatch a = findIngredientMatch b
  /\ assessUnknownIngredient a = assessUnknownIngredient b
  /\ isHiddenSugar a = isHiddenSugar b.
Proof. apply ignores_case. Qed.

Lemma matching_ignores_case_witness :
  findIngredientMatch (Js.lit "SODIUM NITRITE")
    = findIngredientMatch (Js.lit "sodium nitrite")
  /\ assessUnknownIngredient (Js.lit "SODIUM NITRITE")
     = assessUnknownIngredient (Js.lit "sodium nitrite")
  /\ isHiddenSugar (Js.lit "SODIUM NITRITE")
     = isHiddenSugar (Js.lit "sodium nitrite").
Proof.
  apply (matching_ignores_case (Js.lit "SODIUM NITRITE")
                               (Js.lit "sodium nitrite")).
  reflexivity.
Defined.

End MoreMatcher.

(* ===================================================================== *)
(** * Further properties of the assessment and of the aggregator *)
(* ===================================================================== *)

Section MoreAggregator.

(** The assessment of a name: its verdict, and that it is "Hidden Sugar"
    exactly for the hidden sugars. *)
Lemma assessment_facts (name : Js.str) :
  let a := assessUnknownIngredient name in
  30 <= Assessment.score a <= 80
  /\ Concern.eqb (Assessment.concern a) Concern.high = false
  /\ Js.eqb (Assessment.category a) (Js.lit "Hidden Sugar")
     = isHiddenSugar name.
Proof.
  unfold assessUnknownIngredient, checkForMSG.
  destruct (isHiddenSugar name); [repeat split; cbn; lia |].
  destruct (List.existsb _ alwaysContainsMSG); [repeat split; cbn; lia |].
  destruct (List.existsb _ oftenContainsMSG); [repeat split; cbn; lia |].
  cbn [MsgCheck.containsMSG].
  destruct (List.existsb _ redFlags); [repeat split; cbn; lia |].
  destruct (List.existsb _ yellowFlags); [repeat split; cbn; lia |].
  destruct (List.existsb _ greenFlags); repeat split; cbn; lia.
Qed.

Lemma database_scores :
  Forall (fun row => 5 <= Ingredient.score row <= 95) ingredientDatabase.
Proof.
  apply Forall_forall. intros row I.
  assert (E : List.forallb
                (fun row => (5 <=? Ingredient.score row)
                            && (Ingredient.score row <=? 95))
                ingredientDatabase = true) by (vm_compute; reflexivity).
  rewrite List.forallb_forall in E. specialize (E row I).
  apply andb_true_iff in E as [L U]. lia.
Qed.

Lemma tally_add_assoc a b c :
  Tally.add (Tally.add a b) c = Tally.add a (Tally.add b c).
Proof. unfold Tally.add. simpl. f_equal; lia. Qed.

Lemma tally_add_comm a b : Tally.add a b = Tally.add b a.
Proof. unfold Tally.add. f_equal; lia. Qed.

Lemma tally_add_zero_l a : Tally.add Tally.zero a = a.
Proof. destruct a. reflexivity. Qed.

Lemma tally_add_zero_r a : Tally.add a Tally.zero = a.
Proof. rewrite tally_add_comm. apply tally_add_zero_l. Qed.

Lemma tally_step st n :
  tally_of (process_ingredient st n) = Tally.add (tally_of st) (contribution n).
Proof.
  unfold contribution, tally_of, Tally.add, process_ingredient.
  destruct (findIngredientMatch n) as [m |].
  - unfold track_concerns.
    repeat match goal with
           | |- context [if ?b then _ else _] => destruct b
           end;
      cbn; rewrite length_app, Nat2Z.inj_add; cbn; f_equal; lia.
  - repeat match goal with
           | |- context [if ?b then _ else _] => destruct b
           end;
      cbn; rewrite length_app, Nat2Z.inj_add; cbn; f_equal; lia.
Qed.

Lemma tally_fold l st :
  tally_of (List.fold_left process_ingredient l st)
  = Tally.add (tally_of st) (Tally.sum (List.map contribution l)).
Proof.
  revert st. induction l as [| n l IH]; intro st; simpl.
  - rewrite tally_add_zero_r. reflexivity.
  - rewrite IH, tally_step, tally_add_assoc. reflexivity.
Qed.

Lemma tally_all l :
  tally_of (process_all l) = Tally.sum (List.map contribution l).
Proof.
  unfold process_all. rewrite tally_fold. apply tally_add_zero_l.
Qed.

Lemma overall_score_tally st : overall_score st = Tally.score (tally_of st).
Proof.
  unfold overall_score, Tally.score, base_score, totalConcerns, tally_of.
  cbn [Tally.total Tally.high Tally.number Tally.sugar Tally.preservatives
       Tally.artificial].
  destruct (5 <? _); lia.
Qed.

(** X9: the overall score is a function of the sums of what each name adds
    by itself (score, high concern, one count per bucket), and the two
    clamps of the code amount to the one clamp
    [max 5 (base - 8 * high - bulk)]. *)
Theorem overallScore_of_contributions
    (clock : Clock.t) (aiResult : AiResult.t) :
  Product.overallScore (parseIngredients clock aiResult)
  = Tally.score
      (Tally.sum (List.map contribution (AiResult.ingredients aiResult))).
Proof.
  unfold parseIngredients. cbn [Product.overallScore].
  rewrite overall_score_tally, tally_all. reflexivity.
Qed.

Lemma tally_sum_Permutation l1 l2 :
  Permutation l1 l2 -> Tally.sum l1 = Tally.sum l2.
Proof.
  induction 1 as [| x l l' P IH | x y l | l l' l'' P1 IH1 P2 IH2]; simpl.
  - reflexivity.
  - rewrite IH. reflexivity.
  - rewrite <- !tally_add_assoc, (tally_add_comm y x). reflexivity.
  - congruence.
Qed.

(** X10: the order of the names does not matter to the score: two lists
    with the same names, in any order, get the same overall score and the
    same three counts. *)
Theorem order_does_not_change_the_score
    (clock : Clock.t) (first second : AiResult.t) :
  Permutation (AiResult.ingredients first) (AiResult.ingredients second) ->
  let a := parseIngredients clock first in
  let b := parseIngredients clock second in
  Product.overallScore a = Product.overallScore b
  /\ Bucket.count (Concerns.sugar (Product.concerns a))
     = Bucket.count (Concerns.sugar (Product.concerns b))
  /\ Bucket.count (Concerns.preservatives (Product.concerns a))
     = Bucket.count (Concerns.preservatives (Product.concerns b))
  /\ Bucket.count (Concerns.artificial (Product.concerns a))
     = Bucket.count (Concerns.artificial (Product.concerns b)).
Proof.
  intro P. cbv zeta.
  assert (E : tally_of (process_all (AiResult.ingredients first))
              = tally_of (process_all (AiResult.ingredients second))).
  { rewrite !tally_all. apply tally_sum_Permutation, Permutation_map, P. }
  unfold parseIngredients. cbn [Product.overallScore Product.concerns].
  rewrite !overall_score_tally, E.
  split; [reflexivity |].
  split; [exact (f_equal Tally.sugar E) |].
  split; [exact (f_equal Tally.preservatives E) |
          exact (f_equal Tally.artificial E)].
Qed.

Lemma order_does_not_change_the_score_witness :
  let a := parseIngredients (clock_at 0 0)
             (scan_of None None None
                (List.map Js.lit [ "Sodium Nitrite"; "Cane Sugar" ]%string)) in
  let b := parseIngredients (clock_at 0 0)
             (scan_of None None None
                (List.map Js.lit [ "Cane Sugar"; "Sodium Nitrite" ]%string)) in
  Product.overallScore a = Product.overallScore b
  /\ Bucket.count (Concerns.sugar (Product.concerns a))
     = Bucket.count (Concerns.sugar (Product.concerns b))
  /\ Bucket.count (Concerns.preservatives (Product.concerns a))
     = Bucket.count (Concerns.preservatives (Product.concerns b))
  /\ Bucket.count (Concerns.artificial (Product.concerns a))
     = Bucket.count (Concerns.artificial (Product.concerns b)).
Proof.
  apply (order_does_not_change_the_score (clock_at 0 0)
           (scan_of None None None
              (List.map Js.lit [ "Sodium Nitrite"; "Cane Sugar" ]%string))
           (scan_of None None None
              (List.map Js.lit [ "Cane Sugar"; "Sodium Nitrite" ]%string))).
  apply perm_swap.
Defined.

Lemma contribution_ignores_case a b :
  Js.toLowerCase a = Js.toLowerCase b -> contribution a = contribution b.
Proof.
  intro H. destruct (ignores_case a b H) as (F & A & S).
  unfold contribution, tally_of, process_ingredient.
  rewrite F, A. destruct (findIngredientMatch b) as [m |].
  - unfold track_concerns. rewrite S. reflexivity.
  - destruct (Js.eqb _ _); reflexivity.
Qed.

Lemma contributions_ignore_case l1 l2 :
  List.map Js.toLowerCase l1 = List.map Js.toLowerCase l2 ->
  List.map contribution l1 = List.map contribution l2.
Proof.
  revert l2. induction l1 as [| a l1 IH]; intros [| b l2]; simpl;
    try discriminate; [reflexivity |].
  intro E. injection E as Ea El.
  rewrite (contribution_ignores_case a b Ea), (IH l2 El). reflexivity.
Qed.

(** X11: the overall score does not depend on the case of the letters of
    the names. *)
Theorem score_ignores_case (clock : Clock.t) (first second : AiResult.t) :
  List.map Js.toLowerCase (AiResult.ingredients first)
  = List.map Js.toLowerCase (AiResult.ingredients second) ->
  Product.overallScore (parseIngredients clock first)
  = Product.overallScore (parseIngredients clock second).
Proof.
  intro E. unfold parseIngredients. cbn [Product.overallScore].
  rewrite !overall_score_tally, !tally_all,
    (contributions_ignore_case _ _ E). reflexivity.
Qed.

Lemma score_ignores_case_witness :
  Product.overallScore
    (parseIngredients (clock_at 0 0)
       (scan_of None None None
          (List.map Js.lit [ "SODIUM NITRITE"; "Cane Sugar" ]%string)))
  = Product.overallScore
      (parseIngredients (clock_at 0 0)
         (scan_of None None None
            (List.map Js.lit [ "sodium nitrite"; "CANE SUGAR" ]%string))).
Proof.
  apply (score_ignores_case (clock_at 0 0)
           (scan_of None None None
              (List.map Js.lit [ "SODIUM NITRITE"; "Cane Sugar" ]%string))
           (scan_of None None None
              (List.map Js.lit [ "sodium nitrite"; "CANE SUGAR" ]%string))).
  reflexivity.
Defined.

End MoreAggregator.

Section ScoreBounds.

Lemma round_div_bounds (a n lo hi : Z) :
  0 < n -> lo * n <= a <= hi * n -> lo <= round_div a n <= hi.
Proof.
  intros N [L U]. unfold round_div. split.
  - apply Z.div_le_lower_bound; nia.
  - apply Z.lt_succ_r, Z.div_lt_upper_bound; nia.
Qed.

(** What one name adds: one ingredient, a score from 5 to 95, at most one
    high concern and at most one count per bucket. *)
Lemma contribution_bounds (n : Js.str) :
  let c := contribution n in
  Tally.number c = 1
  /\ 5 <= Tally.total c <= 95
  /\ 0 <= Tally.high c <= 1
  /\ 0 <= Tally.sugar c <= 1
  /\ 0 <= Tally.preservatives c <= 1
  /\ 0 <= Tally.artificial c <= 1.
Proof.
  unfold contribution, tally_of, process_ingredient.
  destruct (findIngredientMatch n) as [m |] eqn:F.
  - apply match_in_database in F.
    pose proof database_scores as D. rewrite Forall_forall in D.
    specialize (D m F). unfold track_concerns.
    repeat match goal with
           | |- context [if ?b then _ else _] => destruct b
           end; cbn; lia.
  - pose proof (assessment_facts n) as (S & _ & _).
    repeat match goal with
           | |- context [if ?b then _ else _] => destruct b
           end; cbn; lia.
Qed.

(** What a name adds that the matcher does not find: a score from 30 to
    80, no high concern, nothing to the preservatives and artificial
    counts. *)
Lemma unknown_contribution_bounds (n : Js.str) :
  findIngredientMatch n = None ->
  let c := contribution n in
  Tally.number c = 1
  /\ 30 <= Tally.total c <= 80
  /\ Tally.high c = 0
  /\ 0 <= Tally.sugar c <= 1
  /\ Tally.preservatives c = 0
  /\ Tally.artificial c = 0.
Proof.
  intro F. unfold contribution, tally_of, process_ingredient. rewrite F.
  pose proof (assessment_facts n) as (S & H & _). cbv zeta in H.
  cbn [Parsed.concern Parsed.score]. rewrite H.
  destruct (Js.eqb _ _); cbn; lia.
Qed.

Lemma sum_bounds (l : list Js.str) :
  let t := Tally.sum (List.map contribution l) in
  Tally.number t = Z.of_nat (List.length l)
  /\ 5 * Tally.number t <= Tally.total t <= 95 * Tally.number t
  /\ 0 <= Tally.high t
  /\ 0 <= Tally.sugar t /\ 0 <= Tally.preservatives t
  /\ 0 <= Tally.artificial t.
Proof.
  induction l as [| n l IH]; [cbn; lia |].
  pose proof (contribution_bounds n) as C. cbv zeta in *.
  cbn [List.map Tally.sum List.fold_right List.length] in *.
  fold (Tally.sum (List.map contribution l)) in *.
  unfold Tally.add.
  cbn [Tally.total Tally.high Tally.number Tally.sugar Tally.preservatives
       Tally.artificial].
  rewrite Nat2Z.inj_succ. lia.
Qed.

Lemma unknown_sum_bounds (l : list Js.str) :
  Forall (fun n => findIngredientMatch n = None) l ->
  let t := Tally.sum (List.map contribution l) in
  Tally.number t = Z.of_nat (List.length l)
  /\ 30 * Tally.number t <= Tally.total t
  /\ Tally.high t = 0.
Proof.
  induction 1 as [| n l F Fl IH]; [cbn; lia |].
  pose proof (unknown_contribution_bounds n F) as C. cbv zeta in *.
  cbn [List.map Tally.sum List.fold_right List.length] in *.
  fold (Tally.sum (List.map contribution l)) in *.
  unfold Tally.add.
  cbn [Tally.total Tally.high Tally.number Tally.sugar Tally.preservatives
       Tally.artificial].
  rewrite Nat2Z.inj_succ. lia.
Qed.

(** X12: the overall score lies between 5 and 95, and it is never above
    the rounded average of the scores of the ingredients. *)
Theorem overallScore_range (clock : Clock.t) (aiResult : AiResult.t) :
  5 <= Product.overallScore (parseIngredients clock aiResult) <= 95
  /\ (AiResult.ingredients aiResult = []
      \/ Product.overallScore (parseIngredients clock aiResult)
         <= base_score (process_all (AiResult.ingredients aiResult))).
Proof.
  unfold parseIngredients. cbn [Product.overallScore].
  set (l := AiResult.ingredients aiResult).
  pose proof (sum_bounds l) as (N & T & H & _). cbv zeta in *.
  pose proof (tally_all l) as E.
  rewrite overall_score_tally.
  assert (B : base_score (process_all l)
              = if 0 <? Tally.number (tally_of (process_all l))
                then round_div (Tally.total (tally_of (process_all l)))
                               (Tally.number (tally_of (process_all l)))
                else 50) by reflexivity.
  rewrite B. unfold Tally.score. rewrite E.
  destruct (Z.ltb_spec 0 (Tally.number (Tally.sum (List.map contribution l))))
    as [P | P].
  - pose proof (round_div_bounds
                  (Tally.total (Tally.sum (List.map contribution l)))
                  (Tally.number (Tally.sum (List.map contribution l)))
                  5 95 P ltac:(lia)) as R.
    destruct (5 <? _); split; try (right); lia.
  - destruct l as [| n l']; [split; [cbn; lia | left; reflexivity] |].
    cbn [List.length] in N. lia.
Qed.

(** X13: a product none of whose names the matcher finds gets an overall
    score of at least 20, so it is never labelled "Avoid". *)
Theorem unmatched_product_is_never_avoid
    (clock : Clock.t) (aiResult : AiResult.t) :
  Forall (fun n => findIngredientMatch n = None)
         (AiResult.ingredients aiResult) ->
  20 <= Product.overallScore (parseIngredients clock aiResult)
  /\ Js.eqb (getScoreLabel
               (Product.overallScore (parseIngredients clock aiResult)))
            (Js.lit "Avoid") = false.
Proof.
  intro F. unfold parseIngredients. cbn [Product.overallScore].
  set (l := AiResult.ingredients aiResult) in *.
  assert (S : 20 <= overall_score (process_all l)).
  { pose proof (unknown_sum_bounds l F) as (N & T & H). cbv zeta in *.
    rewrite overall_score_tally, tally_all. unfold Tally.score. rewrite H.
    destruct (Z.ltb_spec 0 (Tally.number (Tally.sum (List.map contribution l))))
      as [P | P].
    - assert (R' : 30 <= round_div
                           (Tally.total (Tally.sum (List.map contribution l)))
                           (Tally.number (Tally.sum (List.map contribution l)))).
      { apply Z.div_le_lower_bound; lia. }
      destruct (5 <? _); lia.
    - destruct (5 <? _); lia. }
  split; [exact S |]. unfold getScoreLabel.
  destruct (80 <=? _); [reflexivity |].
  destruct (60 <=? _); [reflexivity |].
  destruct (40 <=? _); [reflexivity |].
  destruct (Z.leb_spec 20 (overall_score (process_all l))); [reflexivity | lia].
Qed.

Lemma unmatched_product_is_never_avoid_witness :
  let product :=
    parseIngredients (clock_at 0 0)
      (scan_of None None None
         (List.map Js.lit
            [ "Organic Quinoa Flakes"; "Cane Sugar"; "Brown Sugar";
              "Honey"; "Molasses"; "Invert Sugar"; "Raw Sugar" ]%string)) in
  Product.overallScore product = 27
  /\ 20 <= Product.overallScore product
  /\ Js.eqb (getScoreLabel (Product.overallScore product)) (Js.lit "Avoid")
     = false.
Proof.
  split; [vm_compute; reflexivity |].
  apply (unmatched_product_is_never_avoid (clock_at 0 0)
           (scan_of None None None
              (List.map Js.lit
                 [ "Organic Quinoa Flakes"; "Cane Sugar"; "Brown Sugar";
                   "Honey"; "Molasses"; "Invert Sugar";
                   "Raw Sugar" ]%string))).
  repeat constructor.
Defined.

End ScoreBounds.

Section MoreLoop.

(** The profiles are told apart by the keys that the loop looks for. *)
Lemma profile_keys :
  Js.includes profile_kids (Js.lit "Kids") = true
  /\ Js.includes profile_heart (Js.lit "Heart") = true
  /\ Js.includes profile_diabetic (Js.lit "Diabetic") = true.
Proof. repeat split; vm_compute; reflexivity. Qed.

Lemma alert_once_distinct flag key profile message alerts :
  Js.includes profile key = true ->
  In profile the_profiles ->
  alerts_distinct alerts ->
  alerts_distinct (alert_once flag key profile message alerts).
Proof.
  intros K P [D F]. unfold alert_once.
  destruct flag; [| split; assumption].
  destruct (List.find _ alerts) eqn:E; [split; assumption |].
  split.
  - rewrite List.map_app. simpl.
    apply (Permutation_NoDup (Permutation_cons_append _ _)).
    constructor; [| exact D].
    intro I. apply List.in_map_iff in I as (a & Ea & Ia).
    apply (List.find_none _ _ E) in Ia. simpl in Ia.
    rewrite Ea, K in Ia. discriminate.
  - apply Forall_app. split; [exact F |]. constructor; [exact P | constructor].
Qed.

Lemma process_ingredient_alerts st n :
  alerts_distinct (Loop.profileAlerts st) ->
  alerts_distinct (Loop.profileAlerts (process_ingredient st n)).
Proof.
  intro H. unfold process_ingredient.
  destruct (findIngredientMatch n) as [m |]; [| exact H].
  cbn [Loop.profileAlerts]. unfold profile_alerts.
  destruct profile_keys as (K1 & K2 & K3).
  apply alert_once_distinct; [exact K3 | right; right; left; reflexivity |].
  apply alert_once_distinct; [exact K2 | right; left; reflexivity |].
  apply alert_once_distinct; [exact K1 | left; reflexivity | exact H].
Qed.

Lemma fold_alerts l st :
  alerts_distinct (Loop.profileAlerts st) ->
  alerts_distinct
    (Loop.profileAlerts (List.fold_left process_ingredient l st)).
Proof.
  revert st. induction l as [| n l IH]; intros st H; [exact H |].
  simpl. apply IH, process_ingredient_alerts, H.
Qed.

(** X14: the profile alerts of a product are deduplicated: their profiles
    are pairwise distinct and are among Kids, Heart Health and Diabetic,
    so there are at most three alerts. *)
Theorem profileAlerts_are_deduplicated
    (clock : Clock.t) (aiResult : AiResult.t) :
  let alerts := Product.profileAlerts (parseIngredients clock aiResult) in
  NoDup (List.map Alert.profile alerts)
  /\ Forall (fun a => In (Alert.profile a) the_profiles) alerts
  /\ (List.length alerts <= 3)%nat.
Proof.
  cbv zeta. unfold parseIngredients. cbn [Product.profileAlerts].
  destruct (fold_alerts (AiResult.ingredients aiResult) Loop.init) as [D F].
  { split; constructor. }
  fold (process_all (AiResult.ingredients aiResult)) in D, F.
  split; [exact D |]. split; [exact F |].
  rewrite <- (List.length_map Alert.profile).
  change 3%nat with (List.length the_profiles).
  apply NoDup_incl_length; [exact D |].
  intros p I. apply List.in_map_iff in I as (a & <- & Ia).
  rewrite Forall_forall in F. apply F, Ia.
Qed.

(** X15: a name that the matcher does not find changes nothing but the
    list of ingredients, the total and, for a hidden sugar, the sugar
    bucket: no alert, no high concern, nothing for the preservatives and
    artificial buckets. *)
Theorem unmatched_name_touches_sugar_only (st : Loop.t) (name : Js.str) :
  findIngredientMatch name = None ->
  let after := process_ingredient st name in
  Loop.profileAlerts after = Loop.profileAlerts st
  /\ Loop.highConcernCount after = Loop.highConcernCount st
  /\ Concerns.preservatives (Loop.concerns after)
     = Concerns.preservatives (Loop.concerns st)
  /\ Concerns.artificial (Loop.concerns after)
     = Concerns.artificial (Loop.concerns st)
  /\ Concerns.sugar (Loop.concerns after)
     = (if isHiddenSugar name
        then Bucket.push name
               (Bucket.increment (Concerns.sugar (Loop.concerns st)))
        else Concerns.sugar (Loop.concerns st)).
Proof.
  intro F. cbv zeta. unfold process_ingredient. rewrite F.
  pose proof (assessment_facts name) as (_ & H & S). cbv zeta in H, S.
  cbn [Loop.profileAlerts Loop.highConcernCount Loop.concerns
       Parsed.concern].
  rewrite H, S. destruct (isHiddenSugar name); repeat split.
Qed.

Lemma unmatched_name_touches_sugar_only_witness :
  let after := process_ingredient Loop.init (Js.lit "Cane Sugar") in
  Loop.profileAlerts after = Loop.profileAlerts Loop.init
  /\ Loop.highConcernCount after = Loop.highConcernCount Loop.init
  /\ Concerns.preservatives (Loop.concerns after)
     = Concerns.preservatives (Loop.concerns Loop.init)
  /\ Concerns.artificial (Loop.concerns after)
     = Concerns.artificial (Loop.concerns Loop.init)
  /\ Concerns.sugar (Loop.concerns after)
     = (if isHiddenSugar (Js.lit "Cane Sugar")
        then Bucket.push (Js.lit "Cane Sugar")
               (Bucket.increment (Concerns.sugar (Loop.concerns Loop.init)))
        else Concerns.sugar (Loop.concerns Loop.init)).
Proof.
  apply (unmatched_name_touches_sugar_only Loop.init (Js.lit "Cane Sugar")).
  vm_compute. reflexivity.
Defined.

Lemma tidy_slug prev r :
  tidy prev r = true ->
  Forall (fun c => slug_unit c = true) (Js.replace_space_runs_from prev 45 r).
Proof.
  revert prev. induction r as [| c t IH]; intros prev H; [constructor |].
  simpl. apply tidy_cons in H as [(-> & -> & T) | (P & S & T)].
  - change (Js.is_space 32) with true. cbv iota.
    constructor; [reflexivity | auto].
  - rewrite S. constructor; [| auto].
    unfold slug_unit. rewrite P. reflexivity.
Qed.

(** X16: for a name that the matcher does not find, [lookupIngredient]
    returns an object with the name as given, an id made of a-z, 0-9 and
    hyphens, a score from 30 to 80 and a concern that is not high. *)
Theorem lookup_of_unmatched_name (name : Js.str) (unknown : Parsed.t) :
  lookupIngredient name = Lookup.Assessed unknown ->
  findIngredientMatch name = None
  /\ Parsed.name unknown = name
  /\ Parsed.foundInDatabase unknown = false
  /\ Forall (fun c => slug_unit c = true) (Parsed.id unknown)
  /\ 30 <= Parsed.score unknown <= 80
  /\ Concern.eqb (Parsed.concern unknown) Concern.high = false.
Proof.
  unfold lookupIngredient.
  destruct (findIngredientMatch name); [discriminate |].
  intro E. injection E as <-.
  pose proof (assessment_facts name) as (S & H & _). cbv zeta in S, H.
  cbn. repeat split; trivial; try lia.
  apply (tidy_slug false), (normalize_with_tidy Js.toLowerCase).
Qed.

Lemma lookup_of_unmatched_name_witness :
  exists unknown,
    lookupIngredient (Js.lit "Organic Quinoa Flakes") = Lookup.Assessed unknown
    /\ Parsed.id unknown = Js.lit "organic-quinoa-flakes"
    /\ findIngredientMatch (Js.lit "Organic Quinoa Flakes") = None
    /\ Parsed.name unknown = Js.lit "Organic Quinoa Flakes"
    /\ Parsed.foundInDatabase unknown = false
    /\ Forall (fun c => slug_unit c = true) (Parsed.id unknown)
    /\ 30 <= Parsed.score unknown <= 80
    /\ Concern.eqb (Parsed.concern unknown) Concern.high = false.
Proof.
  eexists. split; [vm_compute; reflexivity |].
  split; [vm_compute; reflexivity |].
  apply (lookup_of_unmatched_name (Js.lit "Organic Quinoa Flakes")).
  vm_compute. reflexivity.
Defined.

Lemma parsed_step st n :
  Loop.parsedIngredients (process_ingredient st n)
  = Loop.parsedIngredients st ++ [parse_name n].
Proof.
  unfold process_ingredient, parse_name, lookupIngredient.
  destruct (findIngredientMatch n); reflexivity.
Qed.

Lemma parsed_fold l st :
  Loop.parsedIngredients (List.fold_left process_ingredient l st)
  = Loop.parsedIngredients st ++ List.map parse_name l.
Proof.
  revert st. induction l as [| n l IH]; intro st; simpl.
  - rewrite List.app_nil_r. reflexivity.
  - rewrite IH, parsed_step, <- List.app_assoc. reflexivity.
Qed.

(** X17: the result lists one ingredient per name, in the order of the
    names, and each is what [lookupIngredient] gives for that name alone;
    the total is the sum of their scores. *)
Theorem ingredients_follow_the_names
    (clock : Clock.t) (aiResult : AiResult.t) :
  Product.ingredients (parseIngredients clock aiResult)
  = List.map parse_name (AiResult.ingredients aiResult)
  /\ List.length (Product.ingredients (parseIngredients clock aiResult))
     = List.length (AiResult.ingredients aiResult)
  /\ Loop.totalScore (process_all (AiResult.ingredients aiResult))
     = List.fold_right Z.add 0
         (List.map Parsed.score
                   (Product.ingredients (parseIngredients clock aiResult))).
Proof.
  unfold parseIngredients. cbn [Product.ingredients].
  assert (E : Loop.parsedIngredients
                (process_all (AiResult.ingredients aiResult))
              = List.map parse_name (AiResult.ingredients aiResult))
    by apply (parsed_fold _ Loop.init).
  rewrite E. split; [reflexivity |].
  split; [apply List.length_map |].
  change (Loop.totalScore (process_all (AiResult.ingredients aiResult)))
    with (Tally.total (tally_of (process_all (AiResult.ingredients aiResult)))).
  rewrite tally_all. clear E.
  induction (AiResult.ingredients aiResult) as [| n l IH]; [reflexivity |].
  simpl. rewrite IH. f_equal.
  unfold contribution, tally_of, process_ingredient, parse_name,
    lookupIngredient.
  destruct (findIngredientMatch n); reflexivity.
Qed.

End MoreLoop.

(* ===================================================================== *)
(** * Further properties of the ranker, the anchor and the screen *)
(* ===================================================================== *)

Section MoreRanker.

Lemma pow10_positive (k : nat) : 0 < 10 ^ Z.of_nat k.
Proof. apply Z.pow_pos_nonneg; lia. Qed.

(** X18: [budgetPick] implies a [priceLevel] of budget, for every
    candidate; and a budget level without [budgetPick] occurs only for a
    price without a number in it. *)
Theorem budgetPick_implies_budget_level
    (originalScore : Z) (alt : Candidate.t) (index : Z) :
  let decorated := decorate originalScore alt index in
  (Alternative.budgetPick decorated = true ->
   Alternative.priceLevel decorated = PriceLevel.budget)
  /\ (Alternative.priceLevel decorated = PriceLevel.budget ->
      Alternative.budgetPick decorated = false ->
      parseFloat (price_digits (Candidate.price alt)) = None).
Proof.
  cbv zeta. unfold decorate, price_gt, price_le.
  cbn [Alternative.budgetPick Alternative.priceLevel].
  destruct (parseFloat (price_digits (Candidate.price alt))) as [d |].
  - unfold Decimal.gtb, Decimal.leb.
    pose proof (pow10_positive (Decimal.places d)) as P.
    split.
    + intro L. apply Z.leb_le in L.
      destruct (Z.ltb_spec (7 * 10 ^ Z.of_nat (Decimal.places d))
                           (Decimal.mantissa d)); [lia |].
      destruct (Z.ltb_spec (4 * 10 ^ Z.of_nat (Decimal.places d))
                           (Decimal.mantissa d)); [lia | reflexivity].
    + destruct (Z.ltb_spec (7 * 10 ^ Z.of_nat (Decimal.places d))
                           (Decimal.mantissa d)); [discriminate |].
      destruct (Z.ltb_spec (4 * 10 ^ Z.of_nat (Decimal.places d))
                           (Decimal.mantissa d)); [discriminate |].
      intros _ L. apply Z.leb_gt in L. lia.
  - split; [discriminate | reflexivity].
Qed.

Lemma map_indexed_alt originalScore index alternatives :
  List.map Alternative.alt
           (map_indexed (decorate originalScore) index alternatives)
  = alternatives.
Proof.
  revert index. induction alternatives as [| c l IH]; intro index;
    [reflexivity |].
  simpl. rewrite IH. reflexivity.
Qed.

Lemma map_filter_alt (p : Candidate.t -> bool) (l : list Alternative.t) :
  List.map Alternative.alt
           (List.filter (fun a => p (Alternative.alt a)) l)
  = List.filter p (List.map Alternative.alt l).
Proof.
  induction l as [| a l IH]; [reflexivity |]. simpl.
  destruct (p (Alternative.alt a)); simpl; rewrite IH; reflexivity.
Qed.

(** The candidates behind the decorated elements that pass the filter. *)
Lemma improving_alt originalScore alternatives :
  List.map Alternative.alt (improving originalScore alternatives)
  = List.filter (fun c => originalScore <? Candidate.score c) alternatives.
Proof.
  unfold improving, Alternative.score.
  rewrite (map_filter_alt (fun c => originalScore <? Candidate.score c)),
    map_indexed_alt. reflexivity.
Qed.

Lemma map_indexed_positions originalScore index alternatives :
  0 <= index ->
  Forall (fun a =>
            index < Alternative.id a
            /\ List.nth_error alternatives
                 (Z.to_nat (Alternative.id a - 1 - index))
               = Some (Alternative.alt a))
         (map_indexed (decorate originalScore) index alternatives).
Proof.
  revert index. induction alternatives as [| c l IH]; intros index I;
    [constructor |].
  simpl. constructor.
  - unfold decorate. cbn [Alternative.id Alternative.alt]. split; [lia |].
    replace (index + 1 - 1 - index) with 0 by lia. reflexivity.
  - eapply Forall_impl; [| apply (IH (index + 1)); lia].
    cbv beta. intros a [L E]. split; [lia |].
    replace (Z.to_nat (Alternative.id a - 1 - index))
      with (S (Z.to_nat (Alternative.id a - 1 - (index + 1)))) by lia.
    exact E.
Qed.

Lemma map_indexed_ids_distinct originalScore index alternatives :
  0 <= index ->
  NoDup (List.map Alternative.id
           (map_indexed (decorate originalScore) index alternatives)).
Proof.
  revert index. induction alternatives as [| c l IH]; intros index I;
    [constructor |].
  simpl. constructor; [| apply IH; lia].
  intro In_. apply List.in_map_iff in In_ as (a & E & Ia).
  pose proof (map_indexed_positions originalScore (index + 1) l) as F.
  rewrite Forall_forall in F. destruct (F ltac:(lia) a Ia) as [L _].
  unfold decorate in E. cbn [Alternative.id] in E. lia.
Qed.

Lemma NoDup_map_filter {A B : Type} (f : A -> B) (p : A -> bool)
    (l : list A) :
  NoDup (List.map f l) -> NoDup (List.map f (List.filter p l)).
Proof.
  induction l as [| x l IH]; [trivial |]. simpl. intro D.
  apply NoDup_cons_iff in D as [N D].
  destruct (p x); [| auto]. simpl. constructor; [| auto].
  intro I. apply N. apply List.in_map_iff in I as (y & E & Iy).
  apply List.filter_In in Iy as [Iy _].
  apply List.in_map_iff. eauto.
Qed.

(** X19: the [id] of an element of the result is the position of its
    candidate in the list of the catalog, counted from 1; the ids of a
    result are pairwise distinct. *)
Theorem ids_are_catalog_positions
    (category : Js.str) (originalScore : Z) (result : list Alternative.t) :
  getAlternativesForCategory category originalScore = Outcome.Returns result ->
  Forall (fun a =>
            1 <= Alternative.id a
            /\ List.nth_error (bucket_for category)
                 (Z.to_nat (Alternative.id a - 1))
               = Some (Alternative.alt a))
         result
  /\ NoDup (List.map Alternative.id result).
Proof.
  intro E. apply returns_rank_of_bucket in E as ->.
  pose proof (rank_Permutation originalScore (bucket_for category)) as P.
  split.
  - eapply Permutation_Forall; [exact P |]. unfold improving.
    apply Forall_forall. intros a I. apply List.filter_In in I as [I _].
    pose proof (map_indexed_positions originalScore 0
                  (bucket_for category)) as F.
    rewrite Forall_forall in F. destruct (F ltac:(lia) a I) as [L N].
    split; [lia |]. rewrite Z.sub_0_r in N. exact N.
  - eapply Permutation_NoDup; [apply Permutation_map, P |].
    unfold improving.
    apply NoDup_map_filter, map_indexed_ids_distinct. lia.
Qed.

Lemma ids_are_catalog_positions_witness :
  let result := rank 40 (bucket_for (Js.lit "Beverage")) in
  List.map Alternative.id result = [2; 4; 1; 3]
  /\ Forall (fun a =>
               1 <= Alternative.id a
               /\ List.nth_error (bucket_for (Js.lit "Beverage"))
                    (Z.to_nat (Alternative.id a - 1))
                  = Some (Alternative.alt a))
            result
  /\ NoDup (List.map Alternative.id result).
Proof.
  split; [vm_compute; reflexivity |].
  apply (ids_are_catalog_positions (Js.lit "Beverage") 40).
  vm_compute. reflexivity.
Defined.

Lemma filter_nil_iff {A : Type} (p : A -> bool) (l : list A) :
  List.filter p l = [] <-> Forall (fun x => p x = false) l.
Proof.
  induction l as [| x l IH]; simpl.
  - split; [constructor | reflexivity].
  - destruct (p x) eqn:E.
    + split; [discriminate |]. intro F. inversion F. congruence.
    + rewrite IH. split; [constructor; trivial |].
      intro F. inversion F. assumption.
Qed.

(** X20: in a result the clamp of [improvement] is never active: the
    improvement is [score - originalScore] and at least 1; and the result
    is empty exactly when no candidate of the list scores above
    [originalScore]. *)
Theorem improvement_is_positive
    (category : Js.str) (originalScore : Z) (result : list Alternative.t) :
  getAlternativesForCategory category originalScore = Outcome.Returns result ->
  Forall (fun a =>
            Alternative.improvement a = Alternative.score a - originalScore
            /\ 1 <= Alternative.improvement a)
         result
  /\ (result = [] <->
      Forall (fun c => Candidate.score c <= originalScore)
             (bucket_for category)).
Proof.
  intro E. apply returns_rank_of_bucket in E as ->.
  pose proof (rank_Permutation originalScore (bucket_for category)) as P.
  split.
  - eapply Permutation_Forall; [exact P |].
    eapply Forall_impl; [| apply improving_facts].
    cbv beta. intros a (_ & L & I). lia.
  - split.
    + intro N. rewrite N in P. apply Permutation_sym, Permutation_nil in P.
      apply (f_equal (List.map Alternative.alt)) in P.
      rewrite improving_alt in P. simpl in P.
      apply filter_nil_iff in P.
      eapply Forall_impl; [| exact P]. cbv beta. intros c L.
      apply Z.ltb_ge in L. exact L.
    + intro F.
      assert (N : improving originalScore (bucket_for category) = []).
      { apply List.map_eq_nil with (f := Alternative.alt).
        rewrite improving_alt. apply filter_nil_iff.
        eapply Forall_impl; [| exact F]. cbv beta. intros c L.
        apply Z.ltb_ge. exact L. }
      rewrite N in P. apply Permutation_nil in P. exact P.
Qed.

Lemma improvement_is_positive_witness :
  let result := rank 91 (bucket_for (Js.lit "Grain")) in
  List.map (fun a => (Alternative.score a, Alternative.improvement a)) result
  = [ (92, 1) ]
  /\ Forall (fun a =>
               Alternative.improvement a = Alternative.score a - 91
               /\ 1 <= Alternative.improvement a)
            result
  /\ (result = [] <->
      Forall (fun c => Candidate.score c <= 91)
             (bucket_for (Js.lit "Grain"))).
Proof.
  split; [vm_compute; reflexivity |].
  apply (improvement_is_positive (Js.lit "Grain") 91).
  vm_compute. reflexivity.
Defined.

Lemma filter_incl_weaker {A : Type} (p q : A -> bool) (l : list A) :
  (forall x, p x = true -> q x = true) ->
  incl (List.filter p l) (List.filter q l)
  /\ (List.length (List.filter p l) <= List.length (List.filter q l))%nat.
Proof.
  intro W. split.
  - intros x I. apply List.filter_In in I as [I P].
    apply List.filter_In. auto.
  - induction l as [| x l IH]; [reflexivity |]. simpl.
    destruct (p x) eqn:P.
    + rewrite (W x P). simpl. lia.
    + destruct (q x); simpl; lia.
Qed.

(** X21: a higher [originalScore] never brings a new candidate: the
    candidates returned for the higher score are among those returned for
    the lower one, and they are not more. *)
Theorem higher_score_fewer_alternatives
    (category : Js.str) (lower higher : Z)
    (at_lower at_higher : list Alternative.t) :
  lower <= higher ->
  getAlternativesForCategory category lower = Outcome.Returns at_lower ->
  getAlternativesForCategory category higher = Outcome.Returns at_higher ->
  incl (List.map Alternative.alt at_higher)
       (List.map Alternative.alt at_lower)
  /\ (List.length at_higher <= List.length at_lower)%nat.
Proof.
  intros L E1 E2.
  apply returns_rank_of_bucket in E1 as ->.
  apply returns_rank_of_bucket in E2 as ->.
  pose proof (rank_Permutation lower (bucket_for category)) as P1.
  pose proof (rank_Permutation higher (bucket_for category)) as P2.
  destruct (filter_incl_weaker
              (fun c => higher <? Candidate.score c)
              (fun c => lower <? Candidate.score c)
              (bucket_for category)) as [I N].
  { intros c H. apply Z.ltb_lt in H. apply Z.ltb_lt. lia. }
  rewrite <- !improving_alt in I, N. rewrite !List.length_map in N.
  split.
  - intros c Ic.
    apply (Permutation_in c (Permutation_map Alternative.alt P1)).
    apply I.
    apply (Permutation_in c
             (Permutation_sym (Permutation_map Alternative.alt P2))), Ic.
  - rewrite <- (Permutation_length P1), <- (Permutation_length P2). exact N.
Qed.

Lemma higher_score_fewer_alternatives_witness :
  let at_lower := rank 40 (bucket_for (Js.lit "Snack")) in
  let at_higher := rank 80 (bucket_for (Js.lit "Snack")) in
  (List.length at_lower, List.length at_higher) = (3%nat, 2%nat)
  /\ incl (List.map Alternative.alt at_higher)
          (List.map Alternative.alt at_lower)
  /\ (List.length at_higher <= List.length at_lower)%nat.
Proof.
  split; [vm_compute; reflexivity |].
  apply (higher_score_fewer_alternatives (Js.lit "Snack") 40 80).
  - lia.
  - vm_compute. reflexivity.
  - vm_compute. reflexivity.
Defined.

End MoreRanker.

Section Anchors.

Lemma eqb_refl (s : Js.str) : Js.eqb s s = true.
Proof.
  induction s as [| c t IH]; [reflexivity |]. simpl.
  rewrite N.eqb_refl. exact IH.
Qed.

Lemma own_list_is_ranked category alternatives originalScore :
  own_property category CATEGORY_ALTERNATIVES = Some alternatives ->
  getAlternativesForCategory category originalScore
  = Outcome.Returns (rank originalScore alternatives).
Proof.
  intro E. unfold getAlternativesForCategory, get_property. rewrite E.
  reflexivity.
Qed.

Lemma categories_have_lists (category : Js.str) :
  In category PRODUCT_CATEGORIES ->
  exists alternatives,
    own_property category CATEGORY_ALTERNATIVES = Some alternatives
    /\ alternatives <> [].
Proof.
  intro I. unfold PRODUCT_CATEGORIES in I. simpl in I.
  repeat (destruct I as [<- | I];
          [eexists; split; [vm_compute; reflexivity | discriminate] |]).
  contradiction.
Qed.

(** X22: each of the twelve product categories has a list of its own in
    the catalog, which is not empty, and the ranker answers from that list
    for every score: for these categories the fallback to "Other" is never
    taken and the call does not throw. *)
Theorem product_categories_have_their_own_list
    (category : Js.str) (originalScore : Z) :
  In category PRODUCT_CATEGORIES ->
  exists alternatives,
    own_property category CATEGORY_ALTERNATIVES = Some alternatives
    /\ alternatives <> []
    /\ getAlternativesForCategory category originalScore
       = Outcome.Returns (rank originalScore alternatives).
Proof.
  intro I. destruct (categories_have_lists category I) as (l & E & N).
  exists l. repeat split; trivial. apply own_list_is_ranked, E.
Qed.

Lemma product_categories_have_their_own_list_witness :
  exists alternatives,
    own_property (Js.lit "Baby Food") CATEGORY_ALTERNATIVES
      = Some alternatives
    /\ alternatives <> []
    /\ getAlternativesForCategory (Js.lit "Baby Food") 85
       = Outcome.Returns (rank 85 alternatives).
Proof.
  apply (product_categories_have_their_own_list (Js.lit "Baby Food") 85).
  vm_compute. tauto.
Defined.

Lemma typeMap_values (key category : Js.str) :
  typeMap_own key typeMap = Some category -> In category PRODUCT_CATEGORIES.
Proof.
  unfold typeMap. cbn [List.map fst snd typeMap_own].
  repeat (destruct (Js.eqb _ key);
          [intro E; injection E as <-; vm_compute; tauto |]).
  discriminate.
Qed.

Lemma inferred_category_valid (productType : option Js.str) :
  match inferred_category productType with
  | Anchor.Text category => In category PRODUCT_CATEGORIES
  | Anchor.InheritedValue =>
      List.existsb (Js.eqb (property_key productType))
                   Object_prototype_names = true
  end.
Proof.
  unfold inferred_category.
  destruct (typeMap_own _ typeMap) as [category |] eqn:E.
  - apply (typeMap_values _ _ E).
  - destruct (List.existsb _ Object_prototype_names); [reflexivity |].
    vm_compute. tauto.
Qed.

Lemma existsb_eqb_In (x : Js.str) (l : list Js.str) :
  List.existsb (Js.eqb x) l = true <-> In x l.
Proof.
  rewrite List.existsb_exists. split.
  - intros (y & I & E). apply eqb_eq in E as ->. exact I.
  - intro I. exists x. split; [exact I | apply eqb_refl].
Qed.

Lemma normalizeResult_valid (productCategory productType : option Js.str) :
  match normalizeResult productCategory productType with
  | Anchor.Text category => In category PRODUCT_CATEGORIES
  | Anchor.InheritedValue =>
      List.existsb (Js.eqb (property_key productType))
                   Object_prototype_names = true
  end.
Proof.
  unfold normalizeResult.
  destruct productCategory as [[| c s] |];
    try apply inferred_category_valid.
  destruct (List.existsb _ PRODUCT_CATEGORIES) eqn:E;
    [| apply inferred_category_valid].
  apply existsb_eqb_In, E.
Qed.

(** X23: [normalizeResult] keeps a [productCategory] that is one of the
    twelve categories; in every other case it sets one of the twelve,
    unless [productType] names a property that [typeMap] inherits from
    [Object.prototype], when it sets the inherited value, which is no
    string. *)
Theorem normalizeResult_anchors_the_category
    (productCategory productType : option Js.str) :
  (forall category,
     productCategory = Some category ->
     In category PRODUCT_CATEGORIES ->
     normalizeResult productCategory productType = Anchor.Text category)
  /\ match normalizeResult productCategory productType with
     | Anchor.Text category => In category PRODUCT_CATEGORIES
     | Anchor.InheritedValue =>
         List.existsb (Js.eqb (property_key productType))
                      Object_prototype_names = true
     end.
Proof.
  split; [| apply normalizeResult_valid].
  intros category -> I. unfold normalizeResult.
  destruct category as [| c s].
  - exfalso. revert I. vm_compute. intuition discriminate.
  - apply existsb_eqb_In in I. rewrite I. reflexivity.
Qed.

(** X24: when [normalizeResult] sets a string, the ranker answers for it
    from the list of that very category, for every score: an anchored
    product never gets the alternatives of another category. *)
Theorem anchored_category_is_ranked_from_its_list
    (productCategory productType : option Js.str) (category : Js.str)
    (originalScore : Z) :
  normalizeResult productCategory productType = Anchor.Text category ->
  exists alternatives,
    own_property category CATEGORY_ALTERNATIVES = Some alternatives
    /\ alternatives <> []
    /\ getAlternativesForCategory category originalScore
       = Outcome.Returns (rank originalScore alternatives).
Proof.
  intro E. pose proof (normalizeResult_valid productCategory productType) as V.
  rewrite E in V. destruct (categories_have_lists category V) as (l & O & N).
  exists l. repeat split; trivial. apply own_list_is_ranked, O.
Qed.

Lemma anchored_category_is_ranked_from_its_list_witness :
  exists alternatives,
    own_property (Js.lit "Beverage") CATEGORY_ALTERNATIVES = Some alternatives
    /\ alternatives <> []
    /\ getAlternativesForCategory (Js.lit "Beverage") 60
       = Outcome.Returns (rank 60 alternatives).
Proof.
  apply (anchored_category_is_ranked_from_its_list
           (Some (Js.lit "Soft Drink")) (Some (Js.lit "drink"))
           (Js.lit "Beverage") 60).
  vm_compute. reflexivity.
Defined.

End Anchors.

Section Screen.

Context {A : Type} (key : A -> Z).

Lemma sort_insert_front (x : A) (l : list A) :
  Forall (fun y => key x >= key y) l ->
  sort_insert (descending key) x l = x :: l.
Proof.
  destruct l as [| y t]; [reflexivity |]. intro F. inversion F as [| ? ? G _].
  simpl. unfold descending.
  destruct (Z.ltb_spec 0 (key y - key x)); [lia | reflexivity].
Qed.

(** Sorting a list that is in descending order changes nothing. *)
Lemma sort_of_sorted (l : list A) :
  StronglySorted (fun a b => key a >= key b) l ->
  sort (descending key) l = l.
Proof.
  induction 1 as [| x l S IH F]; [reflexivity |].
  simpl. rewrite IH. apply sort_insert_front, F.
Qed.

Lemma max_of_sorted (x : A) (l : list A) :
  Forall (fun y => key x >= key y) l ->
  Math_max (key x) (List.map key l) = key x.
Proof.
  unfold Math_max. induction 1 as [| y l G F IH]; [reflexivity |].
  simpl. rewrite Z.max_l by lia. exact IH.
Qed.

End Screen.

Section ScreenOnResults.

Lemma StronglySorted_weaken {A : Type} (R R' : A -> A -> Prop) (l : list A) :
  (forall a b, In a l -> In b l -> R a b -> R' a b) ->
  StronglySorted R l -> StronglySorted R' l.
Proof.
  intros W S. induction S as [| x l S IH F]; constructor.
  - apply IH. intros a b Ia Ib. apply W; right; assumption.
  - apply Forall_forall. intros y Iy. rewrite Forall_forall in F.
    apply W; [left; reflexivity | right; exact Iy | apply F, Iy].
Qed.

Lemma StronglySorted_filter {A : Type} (R : A -> A -> Prop) (p : A -> bool)
    (l : list A) :
  StronglySorted R l -> StronglySorted R (List.filter p l).
Proof.
  induction 1 as [| x l S IH F]; [constructor |]. simpl.
  destruct (p x); [| exact IH]. constructor; [exact IH |].
  apply Forall_forall. intros y Iy. apply List.filter_In in Iy as [Iy _].
  rewrite Forall_forall in F. apply F, Iy.
Qed.

(** A result is in descending order of score. *)
Lemma rank_sorted_by_score originalScore alternatives :
  StronglySorted (fun a b => Alternative.score a >= Alternative.score b)
                 (rank originalScore alternatives).
Proof.
  pose proof (rank_Permutation originalScore alternatives) as P.
  pose proof (improving_facts originalScore alternatives) as F.
  apply (Permutation_Forall P) in F. rewrite Forall_forall in F.
  eapply StronglySorted_weaken;
    [| apply (sort_sorted Alternative.improvement)].
  intros a b Ia Ib G.
  destruct (F a Ia) as (_ & La & Ea). destruct (F b Ib) as (_ & Lb & Eb).
  cbv beta in G. lia.
Qed.

Lemma rank_decorated originalScore alternatives :
  Forall (fun a => exists alt index, a = decorate originalScore alt index)
         (rank originalScore alternatives).
Proof.
  eapply Permutation_Forall; [apply rank_Permutation |].
  unfold improving. apply Forall_forall. intros a I.
  apply List.filter_In in I as [I _]. revert I. generalize 0.
  induction alternatives as [| c l IH]; intros index I; [contradiction |].
  destruct I as [<- | I]; eauto.
Qed.

Lemma budget_level_of_pick originalScore alt index :
  Alternative.budgetPick (decorate originalScore alt index) = true ->
  is_budget (Alternative.priceLevel (decorate originalScore alt index)) = true.
Proof.
  unfold decorate, price_gt, price_le.
  cbn [Alternative.budgetPick Alternative.priceLevel].
  destruct (parseFloat (price_digits (Candidate.price alt))) as [d |];
    [| discriminate].
  unfold Decimal.gtb, Decimal.leb.
  pose proof (pow10_positive (Decimal.places d)) as P.
  intro L. apply Z.leb_le in L.
  destruct (Z.ltb_spec (7 * 10 ^ Z.of_nat (Decimal.places d))
                       (Decimal.mantissa d)); [lia |].
  destruct (Z.ltb_spec (4 * 10 ^ Z.of_nat (Decimal.places d))
                       (Decimal.mantissa d)); [lia | reflexivity].
Qed.

(** X25: for an [originalScore] in the range where the arithmetic of the
    code is exact, on a result of the ranker the filter "best" of the
    screen keeps the alternatives with a score of at least 70 in the order
    they have: its sort by score moves nothing; the filter "budget" keeps
    exactly the alternatives of price level budget; every other filter
    shows the result as it is. *)
Theorem screen_filters_on_a_result
    (category : Js.str) (originalScore : Z) (result : list Alternative.t) :
  exact_in_doubles originalScore ->
  getAlternativesForCategory category originalScore = Outcome.Returns result ->
  filteredAlternatives (Js.lit "best") result
  = List.filter (fun item => 70 <=? Alternative.score item) result
  /\ filteredAlternatives (Js.lit "budget") result
     = List.filter (fun item => is_budget (Alternative.priceLevel item))
                   result
  /\ (forall activeFilter : Js.str,
        Js.eqb activeFilter (Js.lit "budget") = false ->
        Js.eqb activeFilter (Js.lit "best") = false ->
        filteredAlternatives activeFilter result = result).
Proof.
  intros _ E. apply returns_rank_of_bucket in E as ->.
  split; [| split;
            [| intros activeFilter NB NB'; unfold filteredAlternatives;
               rewrite NB, NB'; reflexivity]].
  - change (filteredAlternatives (Js.lit "best")
              (rank originalScore (bucket_for category)))
      with (sort (descending Alternative.score)
              (List.filter (fun item => 70 <=? Alternative.score item)
                 (rank originalScore (bucket_for category)))).
    apply sort_of_sorted, StronglySorted_filter, rank_sorted_by_score.
  - change (filteredAlternatives (Js.lit "budget")
              (rank originalScore (bucket_for category)))
      with (List.filter
              (fun item => Alternative.budgetPick item
                           || is_budget (Alternative.priceLevel item))
              (rank originalScore (bucket_for category))).
    apply List.filter_ext_in. intros a I.
    pose proof (rank_decorated originalScore (bucket_for category)) as D.
    rewrite Forall_forall in D. destruct (D a I) as (alt & index & ->).
    destruct (Alternative.budgetPick (decorate originalScore alt index))
      eqn:B; [| reflexivity].
    rewrite (budget_level_of_pick _ _ _ B). reflexivity.
Qed.

Lemma screen_filters_on_a_result_witness :
  let result := rank 28 (bucket_for (Js.lit "Beverage")) in
  List.map Alternative.id (filteredAlternatives (Js.lit "best") result)
  = [2; 4; 1; 3]
  /\ List.map Alternative.id (filteredAlternatives (Js.lit "budget") result)
     = [1]
  /\ filteredAlternatives (Js.lit "best") result
     = List.filter (fun item => 70 <=? Alternative.score item) result
  /\ filteredAlternatives (Js.lit "budget") result
     = List.filter (fun item => is_budget (Alternative.priceLevel item))
                   result
  /\ (forall activeFilter : Js.str,
        Js.eqb activeFilter (Js.lit "budget") = false ->
        Js.eqb activeFilter (Js.lit "best") = false ->
        filteredAlternatives activeFilter result = result).
Proof.
  split; [vm_compute; reflexivity |].
  split; [vm_compute; reflexivity |].
  apply (screen_filters_on_a_result (Js.lit "Beverage") 28).
  - unfold exact_in_doubles. simpl. lia.
  - vm_compute. reflexivity.
Defined.

(** X26: for an [originalScore] in the range where the arithmetic of the
    code is exact, the best score that the screen shows is the score of the
    first alternative of the result, which is above the score of the
    product; without alternatives it is the score of the product. *)
Theorem bestScore_is_the_first_score
    (category : Js.str) (originalScore : Z) (result : list Alternative.t) :
  exact_in_doubles originalScore ->
  getAlternativesForCategory category originalScore = Outcome.Returns result ->
  bestScore originalScore result
  = match result with
    | [] => originalScore
    | first :: _ => Alternative.score first
    end
  /\ originalScore <= bestScore originalScore result
  /\ Forall (fun a => Alternative.score a <= bestScore originalScore result)
            result.
Proof.
  intros _ E. apply returns_rank_of_bucket in E as ->.
  pose proof (rank_sorted_by_score originalScore (bucket_for category)) as S.
  pose proof (rank_Permutation originalScore (bucket_for category)) as P.
  pose proof (improving_facts originalScore (bucket_for category)) as F.
  apply (Permutation_Forall P) in F.
  destruct (rank originalScore (bucket_for category)) as [| a l].
  - repeat split; [cbn; lia | constructor].
  - apply StronglySorted_inv in S as [_ G].
    assert (B : bestScore originalScore (a :: l) = Alternative.score a)
      by apply (max_of_sorted Alternative.score a l G).
    rewrite B. split; [reflexivity |]. split.
    + inversion F as [| ? ? (_ & L & _) _]. lia.
    + constructor; [lia |]. eapply Forall_impl; [| exact G].
      cbv beta. intros b H. lia.
Qed.

Lemma bestScore_is_the_first_score_witness :
  let result := rank 28 (bucket_for (Js.lit "Beverage")) in
  bestScore 28 result = 90
  /\ bestScore 28 result
     = match result with
       | [] => 28
       | first :: _ => Alternative.score first
       end
  /\ 28 <= bestScore 28 result
  /\ Forall (fun a => Alternative.score a <= bestScore 28 result) result.
Proof.
  split; [vm_compute; reflexivity |].
  apply (bestScore_is_the_first_score (Js.lit "Beverage") 28).
  - unfold exact_in_doubles. simpl. lia.
  - vm_compute. reflexivity.
Defined.

(** X27: for a product that [parseIngredients] returns, the screen ranks
    against the overall score of the product: the fallback to 28 for a
    missing or zero score is not taken, since the score is at least 5. *)
Theorem screen_uses_the_overall_score
    (clock : Clock.t) (aiResult : AiResult.t) :
  screen_originalScore
    (Some (Product.overallScore (parseIngredients clock aiResult)))
  = Product.overallScore (parseIngredients clock aiResult).
Proof.
  pose proof (overall_score_floor
                (process_all (AiResult.ingredients aiResult))) as L.
  unfold parseIngredients. cbn [Product.overallScore].
  destruct (overall_score _) as [| p | p]; [lia | reflexivity | reflexivity].
Qed.

End ScreenOnResults.

Section ConcernLists.

Lemma concern_partition (rows : list Ingredient.t) :
  let of_level level :=
    List.filter
      (fun i => Js.eqb (concern_text (Ingredient.concern i)) level) rows in
  Permutation rows
    (of_level (Js.lit "high") ++ of_level (Js.lit "moderate")
     ++ of_level (Js.lit "low") ++ of_level (Js.lit "none")).
Proof.
  cbv zeta. induction rows as [| r rows IH]; [constructor |].
  cbn [List.filter].
  destruct (Ingredient.concern r);
    repeat match goal with
           | |- context [Js.eqb (concern_text ?c) (Js.lit ?s)] =>
               let b := eval vm_compute in (Js.eqb (concern_text c) (Js.lit s)) in
               change (Js.eqb (concern_text c) (Js.lit s)) with b
           end; cbv iota.
  - rewrite !List.app_assoc. apply Permutation_cons_app.
    rewrite <- !List.app_assoc. exact IH.
  - rewrite List.app_assoc. apply Permutation_cons_app.
    rewrite <- List.app_assoc. exact IH.
  - apply Permutation_cons_app. exact IH.
  - apply perm_skip, IH.
Qed.

(** X28: [getIngredientsByConcern] lists, in the order of the database,
    the rows of the level asked for; the lists for 'high', 'moderate',
    'low' and 'none' share the rows of the database among them, each row
    in exactly one list; a level that is none of the four gives the empty
    list. *)
Theorem concern_lists_partition_the_database :
  Permutation ingredientDatabase
    (getIngredientsByConcern (Js.lit "high")
     ++ getIngredientsByConcern (Js.lit "moderate")
     ++ getIngredientsByConcern (Js.lit "low")
     ++ getIngredientsByConcern (Js.lit "none"))
  /\ (forall level row,
        In row (getIngredientsByConcern level)
        <-> In row ingredientDatabase
            /\ concern_text (Ingredient.concern row) = level)
  /\ (forall level,
        In level (List.map Js.lit [ "high"; "moderate"; "low";
                                    "none" ]%string)
        \/ getIngredientsByConcern level = []).
Proof.
  split; [apply (concern_partition ingredientDatabase) |]. split.
  - intros level row. unfold getIngredientsByConcern.
    rewrite List.filter_In. split; intros [I E]; split; trivial.
    + apply eqb_eq, E.
    + rewrite E. apply eqb_refl.
  - intro level.
    destruct (getIngredientsByConcern level) as [| row l] eqn:E;
      [right; reflexivity | left].
    assert (I : In row (getIngredientsByConcern level))
      by (rewrite E; left; reflexivity).
    unfold getIngredientsByConcern in I. apply List.filter_In in I as [_ I].
    apply eqb_eq in I. rewrite <- I.
    destruct (Ingredient.concern row); cbn; tauto.
Qed.

End ConcernLists.

Section SugarBeforeMsg.

Lemma startsWith_iff (s p : Js.str) :
  Js.startsWith s p = true <-> exists post, s = p ++ post.
Proof.
  revert s. induction p as [| a p IH]; intro s.
  - destruct s; simpl; split; eauto.
  - destruct s as [| b s]; simpl.
    + split; [discriminate | intros [post E]; discriminate].
    + rewrite andb_true_iff, N.eqb_eq, IH. split.
      * intros [-> [post ->]]. eauto.
      * intros [post E]. injection E as -> ->. eauto.
Qed.

(** [s.includes(sub)] tells that [sub] stands somewhere in [s]. *)
Lemma includes_iff (s sub : Js.str) :
  Js.includes s sub = true <-> exists pre post, s = pre ++ sub ++ post.
Proof.
  induction s as [| c s IH].
  - change (Js.includes [] sub) with (Js.startsWith [] sub || false).
    rewrite orb_false_r, startsWith_iff. split.
    + intros [post E]. exists [], post. exact E.
    + intros (pre & post & E). destruct pre; [eauto | discriminate].
  - change (Js.includes (c :: s) sub)
      with (Js.startsWith (c :: s) sub || Js.includes s sub).
    rewrite orb_true_iff, startsWith_iff, IH. split.
    + intros [[post E] | (pre & post & E)].
      * exists [], post. exact E.
      * exists (c :: pre), post. rewrite E. reflexivity.
    + intros ([| d pre] & post & E).
      * left. eauto.
      * right. injection E as -> ->. eauto.
Qed.

Lemma includes_trans (a b c : Js.str) :
  Js.includes a b = true -> Js.includes b c = true ->
  Js.includes a c = true.
Proof.
  rewrite !includes_iff. intros (p1 & q1 & ->) (p2 & q2 & ->).
  exists (p1 ++ p2), (q2 ++ q1). rewrite <- !List.app_assoc. reflexivity.
Qed.

(** X29: a name that contains a hidden-sugar alias is assessed as a hidden
    sugar whatever else it contains; so an MSG alias in which a
    hidden-sugar alias stands never decides an assessment, and these are
    five aliases of the list "often contains MSG": maltodextrin,
    oligodextrin, barley malt, malted barley and malt extract. *)
Theorem sugar_alias_decides_before_msg_alias (name alias : Js.str) :
  List.existsb (fun sugar => Js.includes alias sugar) hiddenSugarNames
  = true ->
  Js.includes (Js.toLowerCase name) alias = true ->
  isHiddenSugar name = true
  /\ Assessment.score (assessUnknownIngredient name) = 30
  /\ Assessment.category (assessUnknownIngredient name)
     = Js.lit "Hidden Sugar"
  /\ List.filter
       (fun msg =>
          List.existsb (fun sugar => Js.includes msg sugar) hiddenSugarNames)
       (alwaysContainsMSG ++ oftenContainsMSG)
     = List.map Js.lit
         [ "maltodextrin"; "oligodextrin"; "barley malt"; "malted barley";
           "malt extract" ]%string.
Proof.
  intros S I.
  assert (H : isHiddenSugar name = true).
  { unfold isHiddenSugar.
    rewrite (existsb_lowered _ _ hiddenSugarNames_lower).
    apply List.existsb_exists in S as (sugar & In_ & C).
    apply List.existsb_exists. exists sugar. split; [exact In_ |].
    apply (includes_trans _ _ _ I C). }
  split; [exact H |]. unfold assessUnknownIngredient. rewrite H.
  repeat split.
Qed.

Lemma sugar_alias_decides_before_msg_alias_witness :
  isHiddenSugar (Js.lit "Oligodextrin Powder") = true
  /\ Assessment.score (assessUnknownIngredient (Js.lit "Oligodextrin Powder"))
     = 30
  /\ Assessment.category
       (assessUnknownIngredient (Js.lit "Oligodextrin Powder"))
     = Js.lit "Hidden Sugar"
  /\ List.filter
       (fun msg =>
          List.existsb (fun sugar => Js.includes msg sugar) hiddenSugarNames)
       (alwaysContainsMSG ++ oftenContainsMSG)
     = List.map Js.lit
         [ "maltodextrin"; "oligodextrin"; "barley malt"; "malted barley";
           "malt extract" ]%string.
Proof.
  apply (sugar_alias_decides_before_msg_alias
           (Js.lit "Oligodextrin Powder") (Js.lit "oligodextrin"));
    vm_compute; reflexivity.
Defined.

End SugarBeforeMsg.
